(** * Tiling geometry and export workflow of [download-phoenix-imagery.py]

    A shallow embedding of the geometry helpers ([clip_bbox_to_service_extent],
    [compute_size_from_bbox_and_pixels], [tile_counts], [subdivide_bbox]), of
    the request built by [export_image], and of the export workflows
    ([run_bbox_mode], the per-row body of [run_csv_mode]).

    Numbers.  Python [int] is [Z].  The arithmetic helpers are embedded twice.
    In the module [Binary64] a Python [float] is a binary64 number (the
    primitive [float] of Rocq): every operation rounds as Python does, an
    infinite quotient makes [round] raise [OverflowError] and a NaN
    [ValueError].  Outside that module coordinates and pixel sizes are exact
    rationals [Q]: every arithmetic expression of the source is kept as it is
    written, but no operation rounds, and equality of coordinates is [Qeq]
    ([==]).  That second reading is the one the data model of the program
    describes; statements about it say so, and say nothing about rounding.
    It is also the one the workflows are built on, for statements about the
    calls they make.  A division by zero raises [ZeroDivisionError] in both.

    Effects.  The network, the raster encoder and the file system are
    collaborators: their answers are read from a record of oracles, and every
    call the program makes to them is appended to a trace. *)

From stdpp Require Import gmap strings list pretty.
From Stdlib Require Import QArith Qround Qminmax Lqa Lia.
From Stdlib Require Import PrimFloat FloatOps SpecFloat FloatAxioms.

Set Warnings "-register-all,-inexact-float".

Local Open Scope Z_scope.
Local Open Scope Q_scope.

(** ** Python exceptions and results *)

Inductive exn : Type :=
  | ZeroDivisionError
  | OverflowError
  | ValueError (msg : string)
  | KeyError (key : string)
  | TypeError
  | AttributeError
  | HTTPError
  | GDALError
  | OSError.

Inductive result (A : Type) : Type :=
  | Ok (a : A)
  | Raise (e : exn).
Arguments Ok {A} a.
Arguments Raise {A} e.

Global Instance result_bind : MBind result := fun A B k r =>
  match r with
  | Ok a => k a
  | Raise e => Raise e
  end.
Global Instance result_ret : MRet result := fun A a => Ok a.

(** ** Python arithmetic on floats, in exact arithmetic *)

Definition Qltb (a b : Q) : bool := negb (Qle_bool b a).

(** [max(a, b)] of Python: the first argument unless the second is larger. *)
Definition py_max (a b : Q) : Q := if Qltb a b then b else a.

(** [a / b] on floats. *)
Definition py_div (a b : Q) : result Q :=
  if Qeq_bool b 0 then Raise ZeroDivisionError else Ok (a / b).

(** [round(x)] with one argument: the nearest integer, ties to the even one. *)
Definition py_round (x : Q) : Z :=
  let f := Qfloor x in
  match ((x - inject_Z f) ?= (1 # 2))%Q with
  | Lt => f
  | Gt => (f + 1)%Z
  | Eq => if Z.even f then f else (f + 1)%Z
  end.

(** [range(n)] *)
Definition range (n : Z) : list Z := Z.of_nat <$> seq 0 (Z.to_nat n).

(** ** Geometry and tiling helpers, in exact arithmetic *)

Definition bbox : Type := Q * Q * Q * Q.

(** The literal [1e-9]. *)
Definition tiny : Q := 1 # 1000000000.

(** [compute_size_from_bbox_and_pixels] with no rounding: the difference and
    the quotient are exact, and [round] is applied to the exact quotient.  The
    function as the machine computes it is
    [Binary64.compute_size_from_bbox_and_pixels]. *)
Definition compute_size_from_bbox_and_pixels
    (bbox_native : bbox) (pix_x pix_y : Q) : result (Z * Z) :=
  let '(x1, y1, x2, y2) := bbox_native in
  let w := py_max tiny (x2 - x1) in
  let h := py_max tiny (y2 - y1) in
  qw ← py_div w pix_x;
  let width := Z.max 1 (py_round qw) in
  qh ← py_div h pix_y;
  let height := Z.max 1 (py_round qh) in
  Ok (width, height).

(** [math.ceil(a / b)] on two ints, the quotient being exact. *)
Definition ceil_div (a b : Z) : result Z :=
  q ← py_div (inject_Z a) (inject_Z b); Ok (Qceiling q).

(** [tile_counts] with the exact quotient; [Binary64.tile_counts] has the
    rounded one. *)
Definition tile_counts (width height max_w max_h : Z) : result (Z * Z) :=
  nx ← (if (max_w <? width)%Z then ceil_div width max_w else Ok 1%Z);
  ny ← (if (max_h <? height)%Z then ceil_div height max_h else Ok 1%Z);
  Ok (nx, ny).

(** The tuple that the inner loop of [subdivide_bbox] appends for column [ix]
    of row [iy]. *)
Definition tile_at (x1 y1 dx dy : Q) (ix iy : Z) : bbox :=
  (x1 + inject_Z ix * dx, y1 + inject_Z iy * dy,
   x1 + inject_Z (ix + 1) * dx, y1 + inject_Z (iy + 1) * dy).

(** [subdivide_bbox] with exact steps and cuts; [Binary64.subdivide_bbox] has
    the rounded ones. *)
Definition subdivide_bbox (bbox_native : bbox) (nx ny : Z) : result (list bbox) :=
  let '(x1, y1, x2, y2) := bbox_native in
  dx ← py_div (x2 - x1) (inject_Z nx);
  dy ← py_div (y2 - y1) (inject_Z ny);
  Ok (foldl (fun tiles iy =>
               foldl (fun tiles ix => tiles ++ [tile_at x1 y1 dx dy ix iy])
                     tiles (range nx))
            [] (range ny)).

(** [meters_to_service_units].  [transformer] is the outcome of
    [Transformer.from_crs(3857, wkid)] on line 210, which stands before the
    [try] and whose result is not used; [to_meter] is what pyproj reports for
    the target reference system inside the [try], [None] when it reports
    nothing or fails. *)
Definition meters_to_service_units (meters : Q) (transformer : result unit)
    (to_meter : option Q) : result Q :=
  _ ← transformer;
  match to_meter with
  | Some m =>
      if negb (Qeq_bool m 0) && Qltb 0 m then py_div meters m
      else py_div meters (3048 # 10000)
  | None => py_div meters (3048 # 10000)
  end.

(** ** The same helpers in binary64

    Here a Python [float] is a binary64 number and each operation is the one
    of the machine: [+], [-], [*] and [/] round to the nearest double, ties to
    even, and comparisons are those of IEEE 754 (a NaN compares false, the
    two zeros are equal). *)

Module Binary64.

Definition bbox : Type := float * float * float * float.

(** The literal [1e-9]: the double nearest to it. *)
Definition tiny : float := 1e-9%float.

(** [max(a, b)] of Python: the first argument unless the second is larger; a
    NaN is never larger. *)
Definition py_max (a b : float) : float := if PrimFloat.ltb a b then b else a.

(** [a / b] on floats: only a zero divisor raises; an overflow gives an
    infinity and an invalid operation a NaN. *)
Definition py_div (a b : float) : result float :=
  if PrimFloat.eqb b 0%float then Raise ZeroDivisionError else Ok (a / b)%float.

(** The number that the finite double of sign [s], mantissa [m] and exponent
    [e] stands for. *)
Definition dyadic (s : bool) (m : positive) (e : Z) : Q :=
  let n := if s then Zneg m else Zpos m in
  match e with
  | Zneg p => n # (2 ^ p)%positive
  | _ => inject_Z (n * 2 ^ e)
  end.

(** Zeros and the other finite doubles, as opposed to infinities and NaN. *)
Definition finite (x : float) : bool :=
  match Prim2SF x with
  | S754_zero _ | S754_finite _ _ _ => true
  | _ => false
  end.

(** The number a finite double stands for. *)
Definition value (x : float) : Q :=
  match Prim2SF x with
  | S754_finite s m e => dyadic s m e
  | _ => 0
  end.

(** Conversion of a float to an int by [rounding], which is exact on the
    number the double stands for; an infinity and a NaN cannot be
    converted. *)
Definition to_int (rounding : Q -> Z) (x : float) : result Z :=
  match Prim2SF x with
  | S754_infinity _ => Raise OverflowError
  | S754_nan => Raise (ValueError "cannot convert float NaN to integer")
  | _ => Ok (rounding (value x))
  end.

(** [int(round(x))] *)
Definition round_int : float -> result Z := to_int py_round.

(** [math.ceil(x)] *)
Definition math_ceil : float -> result Z := to_int Qceiling.

(** The double nearest to an int, ties to even; an infinity beyond the
    range. *)
Definition of_int (n : Z) : float := SF2Prim (binary_normalize prec emax n 0 false).

(** Ints from this absolute value on are at least as near to [2 ^ 1024] as to
    the largest double. *)
Definition too_large : Z := (2 ^ 1024 - 2 ^ 970)%Z.

(** [float(n)] on an int. *)
Definition float_of_int (n : Z) : result float :=
  if (Z.abs n <? too_large)%Z then Ok (of_int n) else Raise OverflowError.

(** [a / n] with a float and an int.  The int is converted first; only the
    int 0 converts to a zero. *)
Definition div_int (a : float) (n : Z) : result float :=
  fn ← float_of_int n;
  if (n =? 0)%Z then Raise ZeroDivisionError else Ok (a / fn)%float.

Definition int_spec (n : Z) : spec_float :=
  match n with
  | Z0 => S754_zero false
  | Zpos p => S754_finite false p 0
  | Zneg p => S754_finite true p 0
  end.

(** [a / b] on two ints: the double nearest to the exact quotient. *)
Definition int_truediv (a b : Z) : result float :=
  if (b =? 0)%Z then Raise ZeroDivisionError
  else match SFdiv prec emax (int_spec a) (int_spec b) with
       | S754_infinity _ => Raise OverflowError
       | q => Ok (SF2Prim q)
       end.

Definition compute_size_from_bbox_and_pixels
    (bbox_native : bbox) (pix_x pix_y : float) : result (Z * Z) :=
  let '(x1, y1, x2, y2) := bbox_native in
  let w := py_max tiny (x2 - x1)%float in
  let h := py_max tiny (y2 - y1)%float in
  qw ← py_div w pix_x;
  rw ← round_int qw;
  let width := Z.max 1 rw in
  qh ← py_div h pix_y;
  rh ← round_int qh;
  let height := Z.max 1 rh in
  Ok (width, height).

(** [math.ceil(a / b)] on two ints. *)
Definition ceil_div (a b : Z) : result Z := q ← int_truediv a b; math_ceil q.

Definition tile_counts (width height max_w max_h : Z) : result (Z * Z) :=
  nx ← (if (max_w <? width)%Z then ceil_div width max_w else Ok 1%Z);
  ny ← (if (max_h <? height)%Z then ceil_div height max_h else Ok 1%Z);
  Ok (nx, ny).

(** The tuple that the inner loop of [subdivide_bbox] appends for column [ix]
    of row [iy]; the loop indices are ints below the counts. *)
Definition tile_at (x1 y1 dx dy : float) (ix iy : Z) : bbox :=
  (x1 + of_int ix * dx, y1 + of_int iy * dy,
   x1 + of_int (ix + 1) * dx, y1 + of_int (iy + 1) * dy)%float.

Definition subdivide_bbox (bbox_native : bbox) (nx ny : Z) : result (list bbox) :=
  let '(x1, y1, x2, y2) := bbox_native in
  dx ← div_int (x2 - x1)%float nx;
  dy ← div_int (y2 - y1)%float ny;
  Ok (foldl (fun tiles iy =>
               foldl (fun tiles ix => tiles ++ [tile_at x1 y1 dx dy ix iy])
                     tiles (range nx))
            [] (range ny)).

(** The tiles written as a comprehension: rows from the bottom, each row from
    the left. *)
Definition grid (x1 y1 dx dy : float) (nx ny : Z) : list bbox :=
  range ny ≫= fun iy => (fun ix => tile_at x1 y1 dx dy ix iy) <$> range nx.

(** The pixel grid as the data model words it, without the [1e-9] floor. *)
Definition spec_pixel_grid (b : bbox) (pix_x pix_y : float) : result (Z * Z) :=
  let '(x1, y1, x2, y2) := b in
  qw ← py_div (x2 - x1)%float pix_x;
  rw ← round_int qw;
  qh ← py_div (y2 - y1)%float pix_y;
  rh ← round_int qh;
  Ok (Z.max 1 rw, Z.max 1 rh).

(** The point lies in the cell: lower and left edges belong to the cell, upper
    and right edges to the neighbours. *)
Definition in_cell (b : bbox) (px py : float) : bool :=
  let '(x1, y1, x2, y2) := b in
  PrimFloat.leb x1 px && PrimFloat.ltb px x2 &&
  PrimFloat.leb y1 py && PrimFloat.ltb py y2.

End Binary64.

(** ** JSON documents *)

Inductive json : Type :=
  | JNull
  | JBool (b : bool)
  | JNum (q : Q)
  | JStr (s : string)
  | JList (l : list json)
  | JDict (d : list (string * json)).

(** Truth value of a parsed JSON value in a Python condition. *)
Definition truthy (v : json) : bool :=
  match v with
  | JNull => false
  | JBool b => b
  | JNum q => negb (Qeq_bool q 0)
  | JStr s => negb (String.eqb s "")
  | JList l => match l with [] => false | _ => true end
  | JDict d => match d with [] => false | _ => true end
  end.

Fixpoint assoc (k : string) (d : list (string * json)) : option json :=
  match d with
  | [] => None
  | (k', v) :: d' => if String.eqb k k' then Some v else assoc k d'
  end.

(** [v.get(k)] *)
Definition dict_get (v : json) (k : string) : result json :=
  match v with
  | JDict d => Ok (default JNull (assoc k d))
  | _ => Raise AttributeError
  end.

(** [v[k]] with a string key *)
Definition subscript (v : json) (k : string) : result json :=
  match v with
  | JDict d => match assoc k d with Some x => Ok x | None => Raise (KeyError k) end
  | _ => Raise TypeError
  end.

(** A JSON value used as a coordinate. *)
Definition as_float (v : json) : result Q :=
  match v with
  | JNum q => Ok q
  | JBool b => Ok (if b then 1 else 0)
  | _ => Raise TypeError
  end.

(** ** The shapely calls of the source

    Only [box], [intersection], [is_empty] and [bounds] are used, and only on
    axis-aligned boxes.  A geometry is therefore either empty or a closed
    axis-aligned rectangle [minx <= maxx], [miny <= maxy], which is a polygon,
    a segment or a point according to how many sides have length zero. *)

Module shapely.

Inductive geometry : Type :=
  | Empty
  | Rect (minx miny maxx maxy : Q).

Definition box (minx miny maxx maxy : Q) : geometry :=
  Rect (Qmin minx maxx) (Qmin miny maxy) (Qmax minx maxx) (Qmax miny maxy).

Definition intersection (a b : geometry) : geometry :=
  match a, b with
  | Rect ax1 ay1 ax2 ay2, Rect bx1 by1 bx2 by2 =>
      let x1 := Qmax ax1 bx1 in
      let y1 := Qmax ay1 by1 in
      let x2 := Qmin ax2 bx2 in
      let y2 := Qmin ay2 by2 in
      if Qltb x2 x1 || Qltb y2 y1 then Empty else Rect x1 y1 x2 y2
  | _, _ => Empty
  end.

Definition is_empty (g : geometry) : bool :=
  match g with Empty => true | Rect _ _ _ _ => false end.

(** [g.bounds]; [None] stands for the four NaN of an empty geometry. *)
Definition bounds (g : geometry) : option bbox :=
  match g with
  | Empty => None
  | Rect x1 y1 x2 y2 => Some (x1, y1, x2, y2)
  end.

End shapely.

(** ** Collaborators, traces and the workflow monad *)

Definition bytes : Type := list Byte.byte.

Record ServiceInfo : Type := {
  url : string;
  wkid : Z;
  max_w : Z;
  max_h : Z;
  pixel_size_x : option Q;
  pixel_size_y : option Q;
  units_name : string;
}.

(** Every call that leaves the program. *)
Inductive event : Type :=
  | EvGet (target : string) (params : gmap string string)
  | EvTransform (crs : Z) (lon lat : Q)
  | EvMkdir (path : string)
  | EvWriteBytes (path : string) (content : bytes)
  | EvBuildVRT (vrt : string) (sources : list string)
  | EvTranslate (dest src : string) (options : list string)
  | EvRemove (path : string)
  | EvUnlink (path : string).

Definition trace : Type := list event.

(** The answers of the collaborators.  Each one may depend on everything that
    happened before the call (the first argument), so that a world can model
    a file system or a server with state.  [from_crs] is the construction of
    a pyproj transformer between two EPSG codes where no point is projected
    with it, and [crs_to_meter] the [to_meter] of a reference system; both
    read the local database of pyproj only. *)
Record world : Type := {
  get_json : trace -> string -> gmap string string -> result json;
  get_content : trace -> string -> gmap string string -> result bytes;
  project : trace -> Z -> Q -> Q -> result (Q * Q);
  mkdir : trace -> string -> result unit;
  write_bytes : trace -> string -> bytes -> result unit;
  build_vrt : trace -> string -> list string -> result unit;
  translate : trace -> string -> string -> list string -> result unit;
  os_remove : trace -> string -> result unit;
  unlink : trace -> string -> result unit;
  from_crs : Z -> Z -> result unit;
  crs_to_meter : Z -> option Q;
  str_float : Q -> string;
  resolve : string -> string;
  parent : string -> string;
  stem : string -> string;
  with_suffix : string -> string -> string;
}.

(** A computation reads the world, extends the trace, and returns or raises. *)
Definition io (A : Type) : Type := world -> trace -> result A * trace.

Global Instance io_ret : MRet io := fun A a _ t => (Ok a, t).
Global Instance io_bind : MBind io := fun A B k m w t =>
  match m w t with
  | (Ok a, t') => k a w t'
  | (Raise e, t') => (Raise e, t')
  end.

Definition lift {A} (r : result A) : io A := fun _ t => (r, t).

(** Reading a pure collaborator (formatting, path arithmetic). *)
Definition ask : io world := fun w t => (Ok w, t).

Definition call {A} (ev : event) (answer : world -> trace -> result A) : io A :=
  fun w t => (answer w t, t ++ [ev]).

(** [try: m  except Exception: pass] *)
Definition suppress (m : io unit) : io unit :=
  fun w t => (Ok tt, (m w t).2).

(** [for x in l: body x] *)
Fixpoint for_each {A} (l : list A) (body : A -> io unit) : io unit :=
  match l with
  | [] => mret tt
  | x :: l' => _ ← body x; for_each l' body
  end.

(** A loop that appends one value per round to a list. *)
Fixpoint collect {A B} (acc : list B) (l : list A) (body : A -> io B) : io (list B) :=
  match l with
  | [] => mret acc
  | x :: l' => y ← body x; collect (acc ++ [y]) l' body
  end.

(** [enumerate(l, start=1)] *)
Definition enumerate1 {A} (l : list A) : list (Z * A) :=
  zip (Z.succ <$> range (Z.of_nat (length l))) l.

(** [_get_json] *)
Definition _get_json (target : string) (params : gmap string string) : io json :=
  call (EvGet target params) (fun w t => get_json w t target params).

Definition pjson : gmap string string := {[ "f" := "pjson" ]}.

Definition transform_point (crs : Z) (lon lat : Q) : io (Q * Q) :=
  call (EvTransform crs lon lat) (fun w t => project w t crs lon lat).

Definition transform_bbox_wgs84_to_service (bbox_w84 : bbox) (crs : Z) : io bbox :=
  let '(lon1, lat1, lon2, lat2) := bbox_w84 in
  '(x1, y1) ← transform_point crs lon1 lat1;
  '(x2, y2) ← transform_point crs lon2 lat2;
  mret (Qmin x1 x2, Qmin y1 y2, Qmax x1 x2, Qmax y1 y2).

(** The error raised when the request misses the extent. *)
Definition out_of_extent : exn := ValueError "Requested bbox is outside the service extent.".

Definition clip_bbox_to_service_extent (bbox_native : bbox) (service_url : string)
    : io bbox :=
  info ← _get_json service_url pjson;
  ext ← lift (dict_get info "extent");
  if negb (truthy ext) then mret bbox_native
  else
    vxmin ← lift (subscript ext "xmin");
    vymin ← lift (subscript ext "ymin");
    vxmax ← lift (subscript ext "xmax");
    vymax ← lift (subscript ext "ymax");
    let '(x1, y1, x2, y2) := bbox_native in
    xmin ← lift (as_float vxmin);
    ymin ← lift (as_float vymin);
    xmax ← lift (as_float vxmax);
    ymax ← lift (as_float vymax);
    let inter := shapely.intersection (shapely.box x1 y1 x2 y2)
                                      (shapely.box xmin ymin xmax ymax) in
    if shapely.is_empty inter
    then lift (Raise out_of_extent)
    else match shapely.bounds inter with
         | Some b => mret b
         | None => lift (Raise TypeError)
         end.

(** [str(n)] on an int *)
Definition str_int (n : Z) : string := pretty n.

(** [f"{i:03d}"] *)
Definition fmt_03d (i : Z) : string :=
  let digits := pretty (Z.abs i) in
  let width := if (i <? 0)%Z then 2%nat else 3%nat in
  (if (i <? 0)%Z then "-" else "") +:+
  String.concat "" (replicate (width - String.length digits) "0") +:+ digits.

(** [a / b] on paths *)
Definition path_join (a b : string) : string := a +:+ "/" +:+ b.

(** The [params] dictionary of [export_image]. *)
Definition export_params (w : world) (service : ServiceInfo) (bbox_native : bbox)
    (size : Z * Z) (token : option string) : gmap string string :=
  let '(x1, y1, x2, y2) := bbox_native in
  let params : gmap string string :=
    <[ "interpolation" := "RSP_NearestNeighbor" ]>
    (<[ "format" := "tiff" ]>
    (<[ "size" := str_int size.1 +:+ "," +:+ str_int size.2 ]>
    (<[ "imageSR" := str_int (wkid service) ]>
    (<[ "bboxSR" := str_int (wkid service) ]>
    (<[ "bbox" := String.concat "," (str_float w <$> [x1; y1; x2; y2]) ]>
    (<[ "f" := "image" ]> ∅)))))) in
  match token with
  | Some tok => if String.eqb tok "" then params else <[ "token" := tok ]> params
  | None => params
  end.

Definition export_image (service : ServiceInfo) (bbox_native : bbox) (size : Z * Z)
    (out_path : string) (token : option string) : io string :=
  w ← ask;
  let params := export_params w service bbox_native size token in
  content ← call (EvGet (url service +:+ "/exportImage") params)
                 (fun w t => get_content w t (url service +:+ "/exportImage") params);
  _ ← call (EvWriteBytes out_path content)
           (fun w t => write_bytes w t out_path content);
  mret out_path.

Definition creation_options (blocksize : Z) (compress : string) : list string :=
  ["BLOCKSIZE=" +:+ str_int blocksize; "COMPRESS=" +:+ compress;
   "NUM_THREADS=ALL_CPUS"].

Definition gdal_translate (dest src : string) (options : list string) : io unit :=
  call (EvTranslate dest src options) (fun w t => translate w t dest src options).

Definition mosaic_and_write_cog (parts : list string) (out_cog : string)
    (blocksize : Z) (compress : string) : io string :=
  match parts with
  | [part] =>
      _ ← gdal_translate out_cog part (creation_options blocksize compress);
      mret out_cog
  | _ =>
      w ← ask;
      let vrt_path := with_suffix w out_cog ".vrt" in
      _ ← call (EvBuildVRT vrt_path parts)
               (fun w t => build_vrt w t vrt_path parts);
      _ ← gdal_translate out_cog vrt_path (creation_options blocksize compress);
      _ ← suppress (call (EvRemove vrt_path) (fun w t => os_remove w t vrt_path));
      mret out_cog
  end.

(** ** Workflows *)

(** The pixel size both workflows settle on. *)
Definition pixel_sizes (pixel_size : option Q) (service : ServiceInfo) : Q * Q :=
  match pixel_size with
  | Some p => (p, p)
  | None =>
      let fallback (s : option Q) : Q :=
        match s with
        | Some v => if Qeq_bool v 0 then 1 / 3 else v
        | None => 1 / 3
        end in
      (fallback (pixel_size_x service), fallback (pixel_size_y service))
  end.

(** Lines 324 to 330 of [run_bbox_mode] and 399 to 404 of [run_csv_mode]:
    removal of the intermediate parts. *)
Definition cleanup_parts (keep_parts : bool) (parts : list string) : io unit :=
  if negb keep_parts
  then for_each parts (fun p => suppress (call (EvUnlink p) (fun w t => unlink w t p)))
  else mret tt.

(** Lines 304 to 330 of [run_bbox_mode] and 381 to 404 of [run_csv_mode], which
    differ only in how the output names are built: size, tile counts,
    subdivision, one export per tile, mosaic, removal of the parts. *)
Definition export_tiles (service : ServiceInfo) (bbox_native : bbox) (pix_x pix_y : Q)
    (part_path : Z -> string) (out_cog : string) (token : option string)
    (blocksize : Z) (compress : string) (keep_parts : bool)
    (before_loop : io unit) : io unit :=
  '(width, height) ← lift (compute_size_from_bbox_and_pixels bbox_native pix_x pix_y);
  '(nx, ny) ← lift (tile_counts width height (max_w service) (max_h service));
  tiles ← lift (subdivide_bbox bbox_native nx ny);
  _ ← before_loop;
  parts ← collect [] (enumerate1 tiles) (fun '(i, tile) =>
    '(tw, th) ← lift (compute_size_from_bbox_and_pixels tile pix_x pix_y);
    export_image service tile (tw, th) (part_path i) token);
  _ ← mosaic_and_write_cog parts out_cog blocksize compress;
  cleanup_parts keep_parts parts.

Record bbox_args : Type := {
  ba_pixel_size : option Q;
  ba_bbox : bbox;
  ba_out : string;
  ba_token : option string;
  ba_blocksize : Z;
  ba_compress : string;
  ba_keep_parts : bool;
}.

(** [run_bbox_mode] once [fetch_service_info] has returned [service]. *)
Definition run_bbox_mode (service : ServiceInfo) (args : bbox_args) : io unit :=
  let '(pix_x, pix_y) := pixel_sizes (ba_pixel_size args) service in
  bbox_native ← transform_bbox_wgs84_to_service (ba_bbox args) (wkid service);
  bbox_native ← clip_bbox_to_service_extent bbox_native (url service);
  w ← ask;
  let out_dir := parent w (resolve w (ba_out args)) in
  export_tiles service bbox_native pix_x pix_y
    (fun i => path_join out_dir (stem w (ba_out args) +:+ "_part" +:+ fmt_03d i +:+ ".tif"))
    (ba_out args) (ba_token args) (ba_blocksize args) (ba_compress args)
    (ba_keep_parts args)
    (call (EvMkdir out_dir) (fun w t => mkdir w t out_dir)).

Inductive buffer_unit : Type := Feet | Meters.

Record csv_args : Type := {
  ca_pixel_size : option Q;
  ca_buffer : Q;
  ca_buffer_unit : buffer_unit;
  ca_out_dir : string;
  ca_token : option string;
  ca_blocksize : Z;
  ca_compress : string;
  ca_keep_parts : bool;
}.

(** What the loop of [run_csv_mode] reads from one line of the CSV file: the
    point and the name stem built from the id and name columns. *)
Record csv_row : Type := {
  row_lon : Q;
  row_lat : Q;
  row_stem : string;
}.

(** The square of lines 375 to 378. *)
Definition buffered_bbox (x y buf_dist : Q) : bbox :=
  let minx := x - buf_dist in
  let maxx := x + buf_dist in
  let miny := y - buf_dist in
  let maxy := y + buf_dist in
  (minx, miny, maxx, maxy).

(** The body of the loop of [run_csv_mode] for one row. *)
Definition run_csv_row (service : ServiceInfo) (args : csv_args) (pix_x pix_y : Q)
    (buf_dist : Q) (out_dir : string) (row : csv_row) : io unit :=
  '(x, y) ← transform_point (wkid service) (row_lon row) (row_lat row);
  bbox_native ← clip_bbox_to_service_extent (buffered_bbox x y buf_dist) (url service);
  export_tiles service bbox_native pix_x pix_y
    (fun i => path_join out_dir (row_stem row +:+ "_part" +:+ fmt_03d i +:+ ".tif"))
    (path_join out_dir (row_stem row +:+ ".tif"))
    (ca_token args) (ca_blocksize args) (ca_compress args) (ca_keep_parts args)
    (mret tt).

(** [run_csv_mode] once [fetch_service_info] has returned [service] and the
    CSV file has been read into [rows]. *)
Definition run_csv_mode (service : ServiceInfo) (args : csv_args) (rows : list csv_row)
    : io unit :=
  let '(pix_x, pix_y) := pixel_sizes (ca_pixel_size args) service in
  w ← ask;
  buf_dist ← lift (match ca_buffer_unit args with
                   | Meters => meters_to_service_units (ca_buffer args)
                                 (from_crs w 3857 (wkid service))
                                 (crs_to_meter w (wkid service))
                   | Feet => Ok (ca_buffer args)
                   end);
  let out_dir := resolve w (ca_out_dir args) in
  _ ← call (EvMkdir out_dir) (fun w t => mkdir w t out_dir);
  for_each rows (run_csv_row service args pix_x pix_y buf_dist out_dir).

(** ** Vocabulary of the statements *)

(** The tiles of [subdivide_bbox] written as a comprehension: rows from the
    bottom, each row from the left. *)
Definition grid (x1 y1 dx dy : Q) (nx ny : Z) : list bbox :=
  range ny ≫= fun iy => (fun ix => tile_at x1 y1 dx dy ix iy) <$> range nx.



Definition bbox_width (b : bbox) : Q := let '(x1, _, x2, _) := b in x2 - x1.
Definition bbox_height (b : bbox) : Q := let '(_, y1, _, y2) := b in y2 - y1.
Definition bbox_area (b : bbox) : Q := bbox_width b * bbox_height b.

(** The point [(px, py)] lies in the rectangle, closed on all sides. *)
Definition in_rect (b : bbox) (px py : Q) : Prop :=
  let '(x1, y1, x2, y2) := b in x1 <= px /\ px <= x2 /\ y1 <= py /\ py <= y2.

(** The point lies in the cell: lower and left edges belong to the cell, upper
    and right edges to the neighbours. *)
Definition in_cell (b : bbox) (px py : Q) : Prop :=
  let '(x1, y1, x2, y2) := b in x1 <= px /\ px < x2 /\ y1 <= py /\ py < y2.

Definition sumQ (l : list Q) : Q := foldr Qplus 0 l.

(** Paths whose removal was attempted, and paths written, in order. *)
Definition unlinked (t : trace) : list string :=
  t ≫= fun ev => match ev with EvUnlink p => [p] | _ => [] end.

Definition written (t : trace) : list string :=
  t ≫= fun ev => match ev with EvWriteBytes p _ => [p] | _ => [] end.

(** Running [m] only appends events that satisfy [P]. *)
Definition adds {A} (P : event -> Prop) (m : io A) : Prop :=
  forall w t, exists added, (m w t).2 = t ++ added /\ Forall P added.

(** A request is either the metadata request or an export that names the
    reference system of the service for the bounding box and for the image and
    asks for nearest-neighbour resampling. *)
Definition native_request (service : ServiceInfo) (ev : event) : Prop :=
  match ev with
  | EvGet target params =>
      (target = url service /\ params = pjson) \/
      (target = url service +:+ "/exportImage" /\
       params !! "bboxSR" = Some (str_int (wkid service)) /\
       params !! "imageSR" = Some (str_int (wkid service)) /\
       params !! "interpolation" = Some "RSP_NearestNeighbor")
  | _ => True
  end.

(** Events that neither write a part nor ask for a removal. *)
Definition quiet (ev : event) : Prop :=
  match ev with
  | EvUnlink _ | EvWriteBytes _ _ => False
  | _ => True
  end.

(** Running [m] asks for the removal of the parts it wrote when it returns
    (of none when [keep] is set), and for no removal when it raises. *)
Definition cleans (keep : bool) (m : io unit) : Prop :=
  forall w t, exists added,
    (m w t).2 = t ++ added /\
    match (m w t).1 with
    | Ok _ => unlinked added = if keep then [] else written added
    | Raise _ => unlinked added = []
    end.

(** ** Sample collaborators *)

Definition sample_service : ServiceInfo := {|
  url := "https://maps.example/Aerials/ImageServer";
  wkid := 2868;
  max_w := 5000;
  max_h := 5000;
  pixel_size_x := None;
  pixel_size_y := None;
  units_name := "US survey foot";
|}.

(** A world that serves [info] as metadata, projects a point to itself, and
    answers the encoder and the removals as told. *)
Definition sample_world (info : json) (image : result bytes)
    (encode remove : result unit) : world := {|
  get_json := fun _ _ _ => Ok info;
  get_content := fun _ _ _ => image;
  project := fun _ _ lon lat => Ok (lon, lat);
  mkdir := fun _ _ => Ok tt;
  write_bytes := fun _ _ _ => Ok tt;
  build_vrt := fun _ _ _ => Ok tt;
  translate := fun _ _ _ _ => encode;
  os_remove := fun _ _ => remove;
  unlink := fun _ _ => remove;
  from_crs := fun _ _ => Ok tt;
  crs_to_meter := fun _ => Some (3048 # 10000);
  str_float := fun q => pretty (Qnum q) +:+ "/" +:+ pretty (Zpos (Qden q));
  resolve := fun p => p;
  parent := fun _ => "/data";
  stem := fun _ => "aoi";
  with_suffix := fun p s => p +:+ s;
|}.

Definition sample_extent : json :=
  JDict [("xmin", JNum 0); ("ymin", JNum 0); ("xmax", JNum 100); ("ymax", JNum 50)].

Definition sample_info : json :=
  JDict [("name", JStr "Aerials"); ("extent", sample_extent)].

Definition sample_args : bbox_args := {|
  ba_pixel_size := Some (1 # 2);
  ba_bbox := (10, 10, 20, 15);
  ba_out := "/data/aoi.tif";
  ba_token := None;
  ba_blocksize := 512;
  ba_compress := "DEFLATE";
  ba_keep_parts := false;
|}.

(** ** Service metadata *)

(** Conversions that parse text or consult pyproj: [float(s)] and [int(s)] on
    a string ([None] where Python raises [ValueError]), and the unit name of
    the first axis of the reference system with a given EPSG code ([None]
    where pyproj raises or has no name). *)
Record conversions : Type := {
  float_of_string : string -> option Q;
  int_of_string : string -> option Z;
  axis_unit_name : Z -> option string;
}.

(** [v.get(k, dflt)] *)
Definition dict_get_or (v : json) (k : string) (dflt : json) : result json :=
  match v with
  | JDict d => Ok (default dflt (assoc k d))
  | _ => Raise AttributeError
  end.

(** [int(v)]: a number is truncated towards zero. *)
Definition py_int (c : conversions) (v : json) : result Z :=
  match v with
  | JNum q => Ok (Z.quot (Qnum q) (Zpos (Qden q)))
  | JBool b => Ok (if b then 1 else 0)%Z
  | JStr s =>
      match int_of_string c s with
      | Some z => Ok z
      | None => Raise (ValueError "invalid literal for int()")
      end
  | _ => Raise TypeError
  end.

(** [float(str(v))], [None] where it raises. *)
Definition py_float_of_str (c : conversions) (v : json) : option Q :=
  match v with
  | JNum q => Some q
  | JStr s => float_of_string c s
  | _ => None
  end.

(** [try: return m  except Exception: return fallback] *)
Definition attempt {A} (m : io A) (fallback : A) : io A :=
  fun w t =>
    match m w t with
    | (Ok a, t') => (Ok a, t')
    | (Raise _, t') => (Ok fallback, t')
    end.

(** One round of the loops over the key names (lines 125 to 136):
    [if k in kp: try: px = float(str(kp[k]))  except Exception: pass].
    On a list or a string [k in kp] is evaluated but [kp[k]] raises inside the
    [try]; on anything else that is not an object [k in kp] itself raises. *)
Definition pixel_key (c : conversions) (kp : json) (px : option Q) (k : string)
    : result (option Q) :=
  match kp with
  | JDict d =>
      match assoc k d with
      | Some v =>
          match py_float_of_str c v with
          | Some q => Ok (Some q)
          | None => Ok px
          end
      | None => Ok px
      end
  | JList _ | JStr _ => Ok px
  | _ => Raise TypeError
  end.

Fixpoint pixel_keys (c : conversions) (kp : json) (px : option Q) (keys : list string)
    : result (option Q) :=
  match keys with
  | [] => Ok px
  | k :: keys' => px' ← pixel_key c kp px k; pixel_keys c kp px' keys'
  end.

Definition keys_x : list string :=
  ["Pixel Size X"; "PixelSizeX"; "pixelSizeX"; "pixelSizex"; "pixelSize"].

Definition keys_y : list string :=
  ["Pixel Size Y"; "PixelSizeY"; "pixelSizeY"; "pixelSizey"].

Definition is_none (v : json) : bool :=
  match v with JNull => true | _ => false end.

(** [fetch_service_info].  The [RuntimeError] of line 112 is the result
    [None]; every other error is one of [exn]. *)
Definition fetch_service_info (c : conversions) (service_url : string)
    : io (option ServiceInfo) :=
  info ← _get_json service_url pjson;
  sr ← lift (dict_get_or info "spatialReference" (JDict []));
  latest ← lift (dict_get sr "latestWkid");
  wkid ← (if truthy latest then mret latest else lift (dict_get sr "wkid"));
  if is_none wkid then mret None
  else
    max_w ← lift (dict_get_or info "maxImageWidth" (JNum 10000) ≫= py_int c);
    max_h ← lift (dict_get_or info "maxImageHeight" (JNum 10000) ≫= py_int c);
    kp ← attempt (_get_json (service_url +:+ "/keyProperties") pjson) (JDict []);
    px_x ← lift (pixel_keys c kp None keys_x);
    px_y ← lift (pixel_keys c kp None keys_y);
    let units_name :=
      match py_int c wkid with
      | Ok n =>
          match axis_unit_name c n with
          | Some name => if String.eqb name "" then "unknown" else name
          | None => "unknown"
          end
      | Raise _ => "unknown"
      end in
    n ← lift (py_int c wkid);
    mret (Some {| url := service_url; wkid := n; max_w := max_w; max_h := max_h;
                  pixel_size_x := px_x; pixel_size_y := px_y;
                  units_name := units_name |}).

(** ** More vocabulary *)



(** Conversions for the examples: two strings are read as numbers, every
    reference system measures in feet. *)
Definition sample_conversions : conversions := {|
  float_of_string := fun s => if String.eqb s "0.5" then Some (1 # 2) else None;
  int_of_string := fun s => if String.eqb s "2868" then Some 2868%Z else None;
  axis_unit_name := fun _ => Some "US survey foot";
|}.

(** A world that serves [info] at the address ["svc"] and answers [kp] to
    every other request for a document. *)
Definition sample_world_kp (info : json) (kp : result json) : world :=
  let w := sample_world info (Ok []) (Ok tt) (Ok tt) in
  {| get_json := fun _ target _ => if String.eqb target "svc" then Ok info else kp;
     get_content := get_content w; project := project w; mkdir := mkdir w;
     write_bytes := write_bytes w; build_vrt := build_vrt w; translate := translate w;
     os_remove := os_remove w; unlink := unlink w; from_crs := from_crs w;
     crs_to_meter := crs_to_meter w;
     str_float := str_float w; resolve := resolve w; parent := parent w;
     stem := stem w; with_suffix := with_suffix w |}.




(** * Properties *)

(** ** The functions on sample inputs *)

Example py_round_ties : py_round (5 # 2) = 2%Z /\ py_round (7 # 2) = 4%Z /\
                        py_round (-(5 # 2)) = (-2)%Z /\ py_round (26 # 10) = 3%Z.
Proof. done. Qed.

Example compute_size_sample :
  compute_size_from_bbox_and_pixels (0, 0, 10, 7 # 2) (1 # 3) (1 # 3) = Ok (30%Z, 10%Z).
Proof. reflexivity. Qed.

Example compute_size_zero_pixel :
  compute_size_from_bbox_and_pixels (0, 0, 10, 10) 0 1 = Raise ZeroDivisionError.
Proof. reflexivity. Qed.

Example tile_counts_sample : tile_counts 12001 5000 5000 5000 = Ok (3%Z, 1%Z).
Proof. reflexivity. Qed.

Example subdivide_sample :
  subdivide_bbox (0, 0, 4, 2) 2 2 =
  Ok [tile_at 0 0 (4 / 2) (2 / 2) 0 0; tile_at 0 0 (4 / 2) (2 / 2) 1 0;
      tile_at 0 0 (4 / 2) (2 / 2) 0 1; tile_at 0 0 (4 / 2) (2 / 2) 1 1].
Proof. reflexivity. Qed.

Example subdivide_no_tiles : subdivide_bbox (0, 0, 4, 2) 0 2 = Raise ZeroDivisionError.
Proof. reflexivity. Qed.

Example fmt_03d_sample : fmt_03d 7 = "007" /\ fmt_03d 1234 = "1234".
Proof. done. Qed.

Example run_bbox_mode_sample :
  let w := sample_world sample_info (Ok []) (Ok tt) (Raise OSError) in
  (run_bbox_mode sample_service sample_args w []).1 = Ok tt /\
  written (run_bbox_mode sample_service sample_args w []).2 = ["/data/aoi_part001.tif"] /\
  unlinked (run_bbox_mode sample_service sample_args w []).2 = ["/data/aoi_part001.tif"].
Proof. vm_compute. done. Qed.

(** The helpers in binary64.  The doubles nearest to 0.75 and to 0.1 have the
    quotient 7.5 once it is rounded, which [round] takes to 8; the numbers
    these two doubles stand for have a quotient just below 7.5. *)
Example binary64_compute_size_sample :
  Binary64.compute_size_from_bbox_and_pixels (0, 0, 0.75, 0.75)%float 0.1 0.1
    = Ok (8%Z, 8%Z) /\
  compute_size_from_bbox_and_pixels (0, 0, 3 # 4, 3 # 4)
    (Binary64.value 0.1) (Binary64.value 0.1) = Ok (7%Z, 7%Z).
Proof. split; vm_compute; reflexivity. Qed.

Example binary64_compute_size_errors :
  Binary64.compute_size_from_bbox_and_pixels (0, 0, 1000, 1000)%float 0 1
    = Raise ZeroDivisionError /\
  Binary64.compute_size_from_bbox_and_pixels (0, 0, 1000, 1000)%float 1e-320 1
    = Raise OverflowError /\
  Binary64.compute_size_from_bbox_and_pixels (0, 0, 1000, 1000)%float nan 1
    = Raise (ValueError "cannot convert float NaN to integer").
Proof. repeat split; vm_compute; reflexivity. Qed.

Example binary64_tile_counts_sample :
  Binary64.tile_counts 12001 5000 5000 5000 = Ok (3%Z, 1%Z) /\
  Binary64.tile_counts 12001 5000 0 5000 = Raise ZeroDivisionError /\
  Binary64.tile_counts (10 ^ 400) 5000 1 5000 = Raise OverflowError.
Proof. repeat split; vm_compute; reflexivity. Qed.

Example binary64_subdivide_sample :
  Binary64.subdivide_bbox (0, 0, 4, 2)%float 2 2 =
  Ok [(0, 0, 2, 1); (2, 0, 4, 1); (0, 1, 2, 2); (2, 1, 4, 2)]%float /\
  Binary64.subdivide_bbox (0, 0, 4, 2)%float 0 2 = Raise ZeroDivisionError.
Proof. split; vm_compute; reflexivity. Qed.

(** The largest int that converts to a double, and the first that does
    not. *)
Example binary64_too_large :
  binary_normalize prec emax (Binary64.too_large - 1) 0 false
    = S754_finite false 9007199254740991 971 /\
  binary_normalize prec emax Binary64.too_large 0 false = S754_infinity false.
Proof. split; vm_compute; reflexivity. Qed.

(** ** Arithmetic *)

Lemma Qltb_true (a b : Q) : Qltb a b = true <-> a < b.
Proof.
  unfold Qltb. rewrite negb_true_iff, <- not_true_iff_false, Qle_bool_iff.
  split; [apply Qnot_le_lt | apply Qlt_not_le].
Qed.

Lemma Qltb_false (a b : Q) : Qltb a b = false <-> b <= a.
Proof. unfold Qltb. rewrite negb_false_iff. apply Qle_bool_iff. Qed.

Lemma py_max_ge (a b : Q) : a <= b -> py_max a b == b.
Proof.
  intros H. unfold py_max. destruct (Qltb a b) eqn:E; [reflexivity |].
  apply Qltb_false in E. lra.
Qed.

Lemma py_max_lt (a b : Q) : b < a -> py_max a b = a.
Proof.
  intros H. unfold py_max. destruct (Qltb a b) eqn:E; [| reflexivity].
  apply Qltb_true in E. lra.
Qed.

Lemma py_div_ok (a b : Q) : ~ b == 0 -> py_div a b = Ok (a / b).
Proof.
  intros H. unfold py_div. destruct (Qeq_bool b 0) eqn:E; [| reflexivity].
  apply Qeq_bool_iff in E. contradiction.
Qed.

Lemma Qfloor_unique (q : Q) (z : Z) :
  inject_Z z <= q -> q < inject_Z (z + 1) -> Qfloor q = z.
Proof.
  intros Hlo Hhi.
  assert (z <= Qfloor q)%Z.
  { rewrite <- (Qfloor_Z z). by apply Qfloor_resp_le. }
  assert (Qfloor q < z + 1)%Z.
  { rewrite Zlt_Qlt. eapply Qle_lt_trans; [apply Qfloor_le | done]. }
  lia.
Qed.

Global Instance py_round_proper : Proper (Qeq ==> eq) py_round.
Proof.
  intros x y E. unfold py_round.
  rewrite (Qfloor_comp _ _ E).
  assert (x - inject_Z (Qfloor y) == y - inject_Z (Qfloor y)) as -> by (rewrite E; reflexivity).
  reflexivity.
Qed.

(** [round] is within one half of its argument. *)
Lemma py_round_near (x : Q) :
  inject_Z (py_round x) - (1 # 2) <= x /\ x <= inject_Z (py_round x) + (1 # 2).
Proof.
  unfold py_round.
  pose proof (Qfloor_le x) as Hlo.
  pose proof (Qlt_floor x) as Hhi.
  rewrite inject_Z_plus in Hhi. change (inject_Z 1) with 1 in Hhi.
  destruct (x - inject_Z (Qfloor x) ?= 1 # 2) eqn:E;
    [apply Qeq_alt in E; destruct (Z.even (Qfloor x)) |
     apply Qlt_alt in E | apply Qgt_alt in E];
    rewrite ?inject_Z_plus; change (inject_Z 1) with 1;
    generalize dependent (inject_Z (Qfloor x)); intros; split; lra.
Qed.


Lemma py_round_ge (x : Q) (m : Z) : inject_Z m - (1 # 2) < x -> (m <= py_round x)%Z.
Proof.
  intros H. destruct (py_round_near x) as [_ Hhi].
  assert (m < py_round x + 1)%Z; [| lia].
  rewrite Zlt_Qlt, inject_Z_plus. change (inject_Z 1) with 1.
  generalize dependent (inject_Z (py_round x)).
  generalize dependent (inject_Z m). intros; lra.
Qed.

(** ** Subdivision *)

Lemma foldl_snoc {A B} (f : A -> B) (l : list A) (acc : list B) :
  foldl (fun acc x => acc ++ [f x]) acc l = acc ++ (f <$> l).
Proof.
  revert acc. induction l as [| x l IH]; intros acc; simpl.
  - by rewrite app_nil_r.
  - rewrite IH, <- app_assoc. reflexivity.
Qed.

Lemma foldl_rows {A B C} (f : A -> B -> C) (xs : list A) (ys : list B) (acc : list C) :
  foldl (fun acc y => foldl (fun acc x => acc ++ [f x y]) acc xs) acc ys =
  acc ++ (ys ≫= fun y => (fun x => f x y) <$> xs).
Proof.
  revert acc. induction ys as [| y ys IH]; intros acc; simpl.
  - by rewrite app_nil_r.
  - rewrite IH, foldl_snoc, <- app_assoc. reflexivity.
Qed.

Lemma subdivide_bbox_grid (x1 y1 x2 y2 : Q) (nx ny : Z) :
  (1 <= nx)%Z -> (1 <= ny)%Z ->
  subdivide_bbox (x1, y1, x2, y2) nx ny =
  Ok (grid x1 y1 ((x2 - x1) / inject_Z nx) ((y2 - y1) / inject_Z ny) nx ny).
Proof.
  intros Hnx Hny. unfold subdivide_bbox, grid.
  assert (forall n, (1 <= n)%Z -> ~ inject_Z n == 0) as Hnz.
  { intros n Hn E. unfold Qeq in E. simpl in E. lia. }
  rewrite !py_div_ok by auto. simpl.
  rewrite (foldl_rows (fun ix iy => tile_at _ _ _ _ ix iy)). reflexivity.
Qed.

Lemma length_range (n : Z) : length (range n) = Z.to_nat n.
Proof. unfold range. by rewrite length_fmap, length_seq. Qed.

Lemma lookup_range (n : Z) (k : nat) :
  (k < Z.to_nat n)%nat -> range n !! k = Some (Z.of_nat k).
Proof.
  intros H. unfold range. rewrite list_lookup_fmap, lookup_seq_lt by done. reflexivity.
Qed.

Lemma elem_of_range (n k : Z) : k ∈ range n <-> (0 <= k < n)%Z.
Proof.
  unfold range. rewrite list_elem_of_fmap. split.
  - intros (i & -> & Hi). apply elem_of_seq in Hi. lia.
  - intros Hk. exists (Z.to_nat k). rewrite elem_of_seq. lia.
Qed.

Lemma lookup_bind_uniform {A B} (f : A -> list B) (l : list A) (n i j : nat) :
  (forall x, length (f x) = n) -> (j < n)%nat ->
  (l ≫= f) !! (i * n + j)%nat = l !! i ≫= fun x => f x !! j.
Proof.
  intros Hlen Hj. revert i. induction l as [| x l IH]; intros i.
  - by rewrite lookup_nil.
  - rewrite bind_cons. destruct i as [| i]; simpl.
    + rewrite lookup_app_l by (rewrite Hlen; lia). reflexivity.
    + rewrite lookup_app_r by (rewrite Hlen; lia).
      rewrite Hlen. replace (n + i * n + j - n)%nat with (i * n + j)%nat by lia.
      apply IH.
Qed.

Lemma length_bind_uniform {A B} (f : A -> list B) (l : list A) (n : nat) :
  (forall x, length (f x) = n) -> length (l ≫= f) = (length l * n)%nat.
Proof.
  intros Hlen. induction l as [| x l IH]; [done |].
  rewrite bind_cons, length_app, Hlen, IH. simpl. lia.
Qed.

Section Grid.

Variables (x1 y1 dx dy : Q) (nx ny : Z).
Hypothesis Hnx : (1 <= nx)%Z.
Hypothesis Hny : (1 <= ny)%Z.

Lemma length_grid : length (grid x1 y1 dx dy nx ny) = Z.to_nat (nx * ny).
Proof.
  unfold grid. rewrite (length_bind_uniform _ _ (Z.to_nat nx)).
  - rewrite length_range. lia.
  - intros iy. by rewrite length_fmap, length_range.
Qed.

(** Row-major order: the tile of column [ix] in row [iy] is at position
    [iy * nx + ix]. *)
Lemma lookup_grid (ix iy : Z) :
  (0 <= ix < nx)%Z -> (0 <= iy < ny)%Z ->
  grid x1 y1 dx dy nx ny !! Z.to_nat (iy * nx + ix) = Some (tile_at x1 y1 dx dy ix iy).
Proof.
  intros Hix Hiy. unfold grid.
  replace (Z.to_nat (iy * nx + ix)) with (Z.to_nat iy * Z.to_nat nx + Z.to_nat ix)%nat by lia.
  rewrite (lookup_bind_uniform _ _ (Z.to_nat nx)).
  - rewrite lookup_range by lia. simpl.
    rewrite list_lookup_fmap, lookup_range by lia. simpl.
    rewrite !Z2Nat.id by lia. reflexivity.
  - intros y. by rewrite length_fmap, length_range.
  - lia.
Qed.

(** Conversely every position holds the tile of one column and one row. *)
Lemma grid_lookup_inv (k : nat) (t : bbox) :
  grid x1 y1 dx dy nx ny !! k = Some t ->
  exists ix iy, (0 <= ix < nx)%Z /\ (0 <= iy < ny)%Z /\
    k = Z.to_nat (iy * nx + ix) /\ t = tile_at x1 y1 dx dy ix iy.
Proof.
  intros Hk.
  assert (k < Z.to_nat (nx * ny))%nat as Hlt.
  { rewrite <- length_grid. by eapply lookup_lt_Some. }
  set (z := Z.of_nat k).
  assert (0 <= z < nx * ny)%Z as Hz by lia.
  exists (z mod nx)%Z, (z / nx)%Z.
  assert (0 <= z mod nx < nx)%Z as Hm by (apply Z.mod_pos_bound; lia).
  assert (0 <= z / nx < ny)%Z as Hd.
  { split; [apply Z.div_pos; lia |]. apply Z.div_lt_upper_bound; lia. }
  assert (z = (z / nx) * nx + z mod nx)%Z as Hdm.
  { rewrite Z.mul_comm. apply Z.div_mod. lia. }
  split; [done |]. split; [done |].
  assert (k = Z.to_nat (z / nx * nx + z mod nx)) as Ek by lia.
  split; [done |].
  rewrite Ek, lookup_grid in Hk by done. congruence.
Qed.

Lemma elem_of_grid (t : bbox) :
  t ∈ grid x1 y1 dx dy nx ny <->
  exists ix iy, (0 <= ix < nx)%Z /\ (0 <= iy < ny)%Z /\ t = tile_at x1 y1 dx dy ix iy.
Proof.
  rewrite list_elem_of_lookup. split.
  - intros (k & Hk). apply grid_lookup_inv in Hk as (ix & iy & ? & ? & _ & ->). eauto.
  - intros (ix & iy & Hix & Hiy & ->). eexists. by apply lookup_grid.
Qed.

End Grid.

(** *** One axis *)

Lemma inject_Z_nonzero (n : Z) : (1 <= n)%Z -> ~ inject_Z n == 0.
Proof. intros Hn E. unfold Qeq in E. simpl in E. lia. Qed.

Lemma inject_Z_succ (k : Z) : inject_Z (k + 1) == inject_Z k + 1.
Proof. rewrite inject_Z_plus. reflexivity. Qed.

Section Axis.

(** An axis from [a] to [b] cut into [n] steps of length [d]. *)
Variables (a b d : Q) (n : Z).
Hypothesis Hn : (1 <= n)%Z.
Hypothesis Hab : a < b.
Hypothesis Hd : d == (b - a) / inject_Z n.

Lemma step_total : inject_Z n * d == b - a.
Proof. rewrite Hd. field. by apply inject_Z_nonzero. Qed.

Lemma step_pos : 0 < d.
Proof.
  pose proof step_total as Ht.
  assert (1 <= inject_Z n) as HN by (change 1 with (inject_Z 1); by rewrite <- Zle_Qle).
  generalize dependent (inject_Z n). intros N _ Ht HN.
  destruct (Qlt_le_dec 0 d) as [| Hle]; [done | exfalso; nra].
Qed.

(** The first cut is [a], the last is [b]. *)
Lemma first_cut : a + inject_Z 0 * d == a.
Proof. change (inject_Z 0) with 0. ring. Qed.

Lemma last_cut : a + inject_Z n * d == b.
Proof. rewrite step_total. ring. Qed.

Lemma cut_bounds (k : Z) :
  (0 <= k <= n)%Z -> a <= a + inject_Z k * d /\ a + inject_Z k * d <= b.
Proof.
  intros [Hk0 Hkn]. pose proof step_total as Ht. pose proof step_pos as Hp.
  rewrite Zle_Qle in Hk0, Hkn. change (inject_Z 0) with 0 in Hk0.
  generalize dependent (inject_Z n). generalize dependent (inject_Z k).
  intros; split; nra.
Qed.

(** A point of the axis lies in the step numbered by the floor of its
    offset, and in no other. *)
Lemma in_step_iff (p : Q) (k : Z) :
  a + inject_Z k * d <= p /\ p < a + inject_Z (k + 1) * d <->
  Qfloor ((p - a) / d) = k.
Proof.
  pose proof step_pos as Hp.
  assert (p - a == (p - a) / d * d) as Hq by (field; lra).
  set (q := (p - a) / d) in *. clearbody q.
  split.
  - intros [Hlo Hhi]. apply Qfloor_unique.
    + generalize dependent (inject_Z k). intros; nra.
    + rewrite inject_Z_succ in *. generalize dependent (inject_Z k). intros; nra.
  - intros <-. pose proof (Qfloor_le q) as Hlo. pose proof (Qlt_floor q) as Hhi.
    rewrite inject_Z_succ in *. generalize dependent (inject_Z (Qfloor q)).
    intros; split; nra.
Qed.

Lemma step_index_range (p : Q) :
  a <= p -> p < b -> (0 <= Qfloor ((p - a) / d) < n)%Z.
Proof.
  intros Hlo Hhi. pose proof step_pos as Hp. pose proof step_total as Ht.
  assert (p - a == (p - a) / d * d) as Hq by (field; lra).
  set (q := (p - a) / d) in *. clearbody q.
  split.
  - rewrite <- (Qfloor_Z 0). apply Qfloor_resp_le. change (inject_Z 0) with 0. nra.
  - rewrite Zlt_Qlt. eapply Qle_lt_trans; [apply Qfloor_le |].
    generalize dependent (inject_Z n). intros; nra.
Qed.

End Axis.

(** *** The two axes together *)

Section Partition.

Variables (x1 y1 x2 y2 : Q) (nx ny : Z).
Hypothesis Hx : x1 < x2.
Hypothesis Hy : y1 < y2.
Hypothesis Hnx : (1 <= nx)%Z.
Hypothesis Hny : (1 <= ny)%Z.

Let dx := (x2 - x1) / inject_Z nx.
Let dy := (y2 - y1) / inject_Z ny.

Lemma in_tile_iff (px py : Q) (ix iy : Z) :
  in_cell (tile_at x1 y1 dx dy ix iy) px py <->
  Qfloor ((px - x1) / dx) = ix /\ Qfloor ((py - y1) / dy) = iy.
Proof.
  unfold in_cell, tile_at.
  rewrite <- (in_step_iff x1 x2 dx nx Hnx Hx (reflexivity _)).
  rewrite <- (in_step_iff y1 y2 dy ny Hny Hy (reflexivity _)).
  tauto.
Qed.

Lemma tile_inside (ix iy : Z) (px py : Q) :
  (0 <= ix < nx)%Z -> (0 <= iy < ny)%Z ->
  in_cell (tile_at x1 y1 dx dy ix iy) px py -> in_cell (x1, y1, x2, y2) px py.
Proof.
  intros Hix Hiy. unfold in_cell, tile_at. intros (Ha & Hb & Hc & Hd).
  destruct (cut_bounds x1 x2 dx nx Hnx Hx (reflexivity _) ix) as [? _]; [lia |].
  destruct (cut_bounds x1 x2 dx nx Hnx Hx (reflexivity _) (ix + 1)) as [_ ?]; [lia |].
  destruct (cut_bounds y1 y2 dy ny Hny Hy (reflexivity _) iy) as [? _]; [lia |].
  destruct (cut_bounds y1 y2 dy ny Hny Hy (reflexivity _) (iy + 1)) as [_ ?]; [lia |].
  repeat split; lra.
Qed.

Lemma tile_size (ix iy : Z) :
  bbox_width (tile_at x1 y1 dx dy ix iy) == (x2 - x1) / inject_Z nx /\
  bbox_height (tile_at x1 y1 dx dy ix iy) == (y2 - y1) / inject_Z ny.
Proof.
  unfold bbox_width, bbox_height, tile_at. rewrite !inject_Z_succ. fold dx dy.
  split; ring.
Qed.

Lemma tile_area (ix iy : Z) : bbox_area (tile_at x1 y1 dx dy ix iy) == dx * dy.
Proof.
  unfold bbox_area. destruct (tile_size ix iy) as [-> ->]. reflexivity.
Qed.

Lemma sumQ_const (l : list bbox) (c : Q) :
  (forall t, t ∈ l -> bbox_area t == c) ->
  sumQ (bbox_area <$> l) == inject_Z (Z.of_nat (length l)) * c.
Proof.
  induction l as [| t l IH]; intros Hc.
  - simpl. change (inject_Z 0) with 0. ring.
  - rewrite fmap_cons. unfold sumQ. simpl foldr. fold (sumQ (bbox_area <$> l)).
    rewrite IH by (intros; apply Hc; by right).
    rewrite (Hc t) by left.
    rewrite length_cons, Nat2Z.inj_succ. unfold Z.succ. rewrite inject_Z_succ. ring.
Qed.

Lemma grid_area :
  sumQ (bbox_area <$> grid x1 y1 dx dy nx ny) == bbox_area (x1, y1, x2, y2).
Proof.
  rewrite (sumQ_const _ (dx * dy)).
  - rewrite length_grid by done. rewrite Z2Nat.id by lia.
    rewrite inject_Z_mult. unfold bbox_area, bbox_width, bbox_height, dx, dy.
    field. split; by apply inject_Z_nonzero.
  - intros t Ht. apply elem_of_grid in Ht as (ix & iy & _ & _ & ->); [| done | done].
    apply tile_area.
Qed.

(** Every point of the parent lies in the cell of exactly one position. *)
Lemma grid_partition (px py : Q) :
  in_cell (x1, y1, x2, y2) px py ->
  exists k t, grid x1 y1 dx dy nx ny !! k = Some t /\ in_cell t px py /\
    forall k' t', grid x1 y1 dx dy nx ny !! k' = Some t' -> in_cell t' px py -> k' = k.
Proof.
  intros (Ha & Hb & Hc & Hd).
  set (ix := Qfloor ((px - x1) / dx)). set (iy := Qfloor ((py - y1) / dy)).
  assert (0 <= ix < nx)%Z as Hix.
  { by apply (step_index_range x1 x2 dx nx Hnx Hx (reflexivity _)). }
  assert (0 <= iy < ny)%Z as Hiy.
  { by apply (step_index_range y1 y2 dy ny Hny Hy (reflexivity _)). }
  exists (Z.to_nat (iy * nx + ix)), (tile_at x1 y1 dx dy ix iy).
  split; [by apply lookup_grid |].
  split; [by apply in_tile_iff |].
  intros k' t' Hk' Hin.
  apply grid_lookup_inv in Hk' as (ix' & iy' & _ & _ & -> & ->); [| done | done].
  apply in_tile_iff in Hin as [<- <-]. reflexivity.
Qed.

End Partition.

(** ** Subdivision in binary64 *)

Lemma float_of_int_ok (n : Z) :
  (0 <= n < Binary64.too_large)%Z -> Binary64.float_of_int n = Ok (Binary64.of_int n).
Proof.
  intros Hn. unfold Binary64.float_of_int.
  destruct (Z.ltb_spec (Z.abs n) Binary64.too_large) as [| Hge]; [done |].
  rewrite Z.abs_eq in Hge by apply Hn. destruct Hn as [_ Hn].
  exfalso. revert Hge. by apply Z.lt_nge.
Qed.

Lemma div_int_ok (a : float) (n : Z) :
  (1 <= n < Binary64.too_large)%Z ->
  Binary64.div_int a n = Ok (a / Binary64.of_int n)%float.
Proof.
  intros [Hn Hlt]. unfold Binary64.div_int.
  rewrite float_of_int_ok by (split; [| done]; by apply (Z.le_trans 0 1)).
  simpl. destruct (Z.eqb_spec n 0) as [-> |]; done.
Qed.

Lemma binary64_subdivide_grid (x1 y1 x2 y2 : float) (nx ny : Z) :
  (1 <= nx < Binary64.too_large)%Z -> (1 <= ny < Binary64.too_large)%Z ->
  Binary64.subdivide_bbox (x1, y1, x2, y2) nx ny =
  Ok (Binary64.grid x1 y1 ((x2 - x1) / Binary64.of_int nx)%float
        ((y2 - y1) / Binary64.of_int ny)%float nx ny).
Proof.
  intros Hnx Hny. unfold Binary64.subdivide_bbox, Binary64.grid.
  rewrite !div_int_ok by done. simpl.
  rewrite (foldl_rows (fun ix iy => Binary64.tile_at _ _ _ _ ix iy)). reflexivity.
Qed.

Section Grid64.

Variables (x1 y1 dx dy : float) (nx ny : Z).
Hypothesis Hnx : (1 <= nx)%Z.
Hypothesis Hny : (1 <= ny)%Z.

Lemma binary64_length_grid :
  length (Binary64.grid x1 y1 dx dy nx ny) = Z.to_nat (nx * ny).
Proof.
  unfold Binary64.grid. rewrite (length_bind_uniform _ _ (Z.to_nat nx)).
  - rewrite length_range. lia.
  - intros iy. by rewrite length_fmap, length_range.
Qed.

Lemma binary64_lookup_grid (ix iy : Z) :
  (0 <= ix < nx)%Z -> (0 <= iy < ny)%Z ->
  Binary64.grid x1 y1 dx dy nx ny !! Z.to_nat (iy * nx + ix) =
  Some (Binary64.tile_at x1 y1 dx dy ix iy).
Proof.
  intros Hix Hiy. unfold Binary64.grid.
  replace (Z.to_nat (iy * nx + ix)) with (Z.to_nat iy * Z.to_nat nx + Z.to_nat ix)%nat by lia.
  rewrite (lookup_bind_uniform _ _ (Z.to_nat nx)).
  - rewrite lookup_range by lia. simpl.
    rewrite list_lookup_fmap, lookup_range by lia. simpl.
    rewrite !Z2Nat.id by lia. reflexivity.
  - intros y. by rewrite length_fmap, length_range.
  - lia.
Qed.

End Grid64.

(** With exact coordinates [subdivide_bbox] cuts the rectangle into equal
    tiles that cover it once. *)
Lemma subdivide_exact (x1 y1 x2 y2 : Q) (nx ny : Z) :
  x1 < x2 -> y1 < y2 -> (1 <= nx)%Z -> (1 <= ny)%Z ->
  exists tiles,
    subdivide_bbox (x1, y1, x2, y2) nx ny = Ok tiles /\
    Z.of_nat (length tiles) = (nx * ny)%Z /\
    (forall ix iy, (0 <= ix < nx)%Z -> (0 <= iy < ny)%Z ->
       tiles !! Z.to_nat (iy * nx + ix) =
       Some (tile_at x1 y1 ((x2 - x1) / inject_Z nx) ((y2 - y1) / inject_Z ny) ix iy)) /\
    (forall t, t ∈ tiles ->
       bbox_width t == (x2 - x1) / inject_Z nx /\
       bbox_height t == (y2 - y1) / inject_Z ny) /\
    (exists first last,
       tiles !! 0%nat = Some first /\ tiles !! Z.to_nat (nx * ny - 1) = Some last /\
       first.1.1.1 == x1 /\ first.1.1.2 == y1 /\ last.1.2 == x2 /\ last.2 == y2) /\
    (forall ix iy t r, (0 <= ix)%Z -> (ix + 1 < nx)%Z -> (0 <= iy < ny)%Z ->
       tiles !! Z.to_nat (iy * nx + ix) = Some t ->
       tiles !! Z.to_nat (iy * nx + (ix + 1)) = Some r ->
       r.1.1.1 = t.1.2) /\
    (forall ix iy t u, (0 <= ix < nx)%Z -> (0 <= iy)%Z -> (iy + 1 < ny)%Z ->
       tiles !! Z.to_nat (iy * nx + ix) = Some t ->
       tiles !! Z.to_nat ((iy + 1) * nx + ix) = Some u ->
       u.1.1.2 = t.2) /\
    (forall t px py, t ∈ tiles -> in_cell t px py -> in_cell (x1, y1, x2, y2) px py) /\
    (forall px py, in_cell (x1, y1, x2, y2) px py ->
       exists k t, tiles !! k = Some t /\ in_cell t px py /\
         forall k' t', tiles !! k' = Some t' -> in_cell t' px py -> k' = k) /\
    sumQ (bbox_area <$> tiles) == bbox_area (x1, y1, x2, y2).
Proof.
  intros Hx Hy Hnx Hny. eexists. split; [by apply subdivide_bbox_grid |].
  split; [rewrite length_grid by done; lia |].
  split; [intros; by apply lookup_grid |].
  split.
  { intros t Ht. apply elem_of_grid in Ht as (ix & iy & _ & _ & ->); [| done | done].
    apply tile_size. }
  split.
  { eexists _, _.
    split; [apply (lookup_grid _ _ _ _ nx ny Hnx Hny 0 0); lia |].
    split.
    { replace (nx * ny - 1)%Z with ((ny - 1) * nx + (nx - 1))%Z by lia.
      apply lookup_grid; lia. }
    simpl. replace (nx - 1 + 1)%Z with nx by lia. replace (ny - 1 + 1)%Z with ny by lia.
    split; [by apply (first_cut x1) |]. split; [by apply (first_cut y1) |].
    split; [by apply (last_cut x1 x2 _ nx) | by apply (last_cut y1 y2 _ ny)]. }
  split.
  { intros ix iy t r Hix Hix' Hiy Ht Hr.
    rewrite lookup_grid in Ht, Hr by lia. by injection Ht as <-; injection Hr as <-. }
  split.
  { intros ix iy t u Hix Hiy Hiy' Ht Hu.
    rewrite lookup_grid in Ht, Hu by lia. by injection Ht as <-; injection Hu as <-. }
  split.
  { intros t px py Ht. apply elem_of_grid in Ht as (ix & iy & ? & ? & ->); [| done | done].
    by apply tile_inside. }
  split; [by apply grid_partition | by apply grid_area].
Qed.

(** C1, as stated, fails in binary64: the unit square cut into 49 columns.
    The right edge of the last column is [0 + 49 * (1 / 49)], which is the
    double just below 1, so the tiles leave a gap along the right edge of the
    parent: the point with that abscissa lies in the parent and in no tile. *)
Lemma subdivide_bbox_partition_counterexample :
  let parent : Binary64.bbox := (0, 0, 1, 1)%float in
  let px := 0.99999999999999989%float in
  exists tiles last,
    Binary64.subdivide_bbox parent 49 1 = Ok tiles /\
    length tiles = 49%nat /\
    tiles !! 48%nat = Some last /\
    last.1.2 = px /\ PrimFloat.ltb px 1 = true /\
    Binary64.in_cell parent px 0 = true /\
    forallb (fun t => negb (Binary64.in_cell t px 0)) tiles = true.
Proof.
  cbv zeta. eexists _, _.
  split; [vm_compute; reflexivity |].
  repeat split; vm_compute; reflexivity.
Qed.

(** C1, amended.  In binary64, with at least one tile per axis,
    [subdivide_bbox] returns [nx * ny] rectangles; the rectangle at position
    [iy * nx + ix] is the one of column [ix] in row [iy] (rows from the lower
    edge, columns from the left edge), with the cuts [x1 + ix * dx] and
    [y1 + iy * dy] as the machine rounds them; a rectangle starts on the very
    double on which its left neighbour ends, and on the one on which the
    rectangle below ends.  With exact coordinates, and [x1 < x2], [y1 < y2],
    moreover: every rectangle is [width / nx] wide and [height / ny] high; the
    first cut of each axis is the lower bound of the parent and the last cut
    its upper bound; every rectangle lies in the parent; every point of the
    parent lies in exactly one of them; and their areas add up to the area of
    the parent. *)
Theorem subdivide_bbox_partition (nx ny : Z) :
  (1 <= nx)%Z -> (1 <= ny)%Z ->
  (forall x1 y1 x2 y2 : float,
     (nx < Binary64.too_large)%Z -> (ny < Binary64.too_large)%Z ->
     let dx := ((x2 - x1) / Binary64.of_int nx)%float in
     let dy := ((y2 - y1) / Binary64.of_int ny)%float in
     exists tiles,
       Binary64.subdivide_bbox (x1, y1, x2, y2) nx ny = Ok tiles /\
       Z.of_nat (length tiles) = (nx * ny)%Z /\
       (forall ix iy, (0 <= ix < nx)%Z -> (0 <= iy < ny)%Z ->
          tiles !! Z.to_nat (iy * nx + ix) = Some (Binary64.tile_at x1 y1 dx dy ix iy)) /\
       (forall ix iy t r, (0 <= ix)%Z -> (ix + 1 < nx)%Z -> (0 <= iy < ny)%Z ->
          tiles !! Z.to_nat (iy * nx + ix) = Some t ->
          tiles !! Z.to_nat (iy * nx + (ix + 1)) = Some r ->
          r.1.1.1 = t.1.2) /\
       (forall ix iy t u, (0 <= ix < nx)%Z -> (0 <= iy)%Z -> (iy + 1 < ny)%Z ->
          tiles !! Z.to_nat (iy * nx + ix) = Some t ->
          tiles !! Z.to_nat ((iy + 1) * nx + ix) = Some u ->
          u.1.1.2 = t.2)) /\
  (forall x1 y1 x2 y2 : Q,
     x1 < x2 -> y1 < y2 ->
     exists tiles,
       subdivide_bbox (x1, y1, x2, y2) nx ny = Ok tiles /\
       Z.of_nat (length tiles) = (nx * ny)%Z /\
       (forall ix iy, (0 <= ix < nx)%Z -> (0 <= iy < ny)%Z ->
          tiles !! Z.to_nat (iy * nx + ix) =
          Some (tile_at x1 y1 ((x2 - x1) / inject_Z nx) ((y2 - y1) / inject_Z ny) ix iy)) /\
       (forall t, t ∈ tiles ->
          bbox_width t == (x2 - x1) / inject_Z nx /\
          bbox_height t == (y2 - y1) / inject_Z ny) /\
       (exists first last,
          tiles !! 0%nat = Some first /\ tiles !! Z.to_nat (nx * ny - 1) = Some last /\
          first.1.1.1 == x1 /\ first.1.1.2 == y1 /\ last.1.2 == x2 /\ last.2 == y2) /\
       (forall ix iy t r, (0 <= ix)%Z -> (ix + 1 < nx)%Z -> (0 <= iy < ny)%Z ->
          tiles !! Z.to_nat (iy * nx + ix) = Some t ->
          tiles !! Z.to_nat (iy * nx + (ix + 1)) = Some r ->
          r.1.1.1 = t.1.2) /\
       (forall ix iy t u, (0 <= ix < nx)%Z -> (0 <= iy)%Z -> (iy + 1 < ny)%Z ->
          tiles !! Z.to_nat (iy * nx + ix) = Some t ->
          tiles !! Z.to_nat ((iy + 1) * nx + ix) = Some u ->
          u.1.1.2 = t.2) /\
       (forall t px py, t ∈ tiles -> in_cell t px py -> in_cell (x1, y1, x2, y2) px py) /\
       (forall px py, in_cell (x1, y1, x2, y2) px py ->
          exists k t, tiles !! k = Some t /\ in_cell t px py /\
            forall k' t', tiles !! k' = Some t' -> in_cell t' px py -> k' = k) /\
       sumQ (bbox_area <$> tiles) == bbox_area (x1, y1, x2, y2)).
Proof.
  intros Hnx Hny. split.
  - intros x1 y1 x2 y2 Hbx Hby dx dy. eexists.
    split; [by apply binary64_subdivide_grid |].
    split; [rewrite binary64_length_grid by done; lia |].
    split; [intros; by apply binary64_lookup_grid |].
    split.
    + intros ix iy t r Hix Hix' Hiy Ht Hr.
      rewrite binary64_lookup_grid in Ht, Hr by lia.
      by injection Ht as <-; injection Hr as <-.
    + intros ix iy t u Hix Hiy Hiy' Ht Hu.
      rewrite binary64_lookup_grid in Ht, Hu by lia.
      by injection Ht as <-; injection Hu as <-.
  - intros x1 y1 x2 y2 Hx Hy. by apply subdivide_exact.
Qed.

Lemma subdivide_bbox_partition_witness :
  (exists tiles,
     Binary64.subdivide_bbox (0, 0, 4, 2)%float 2 2 = Ok tiles /\
     Z.of_nat (length tiles) = 4%Z) /\
  (exists tiles,
     subdivide_bbox (0, 0, 4, 2) 2 2 = Ok tiles /\
     Z.of_nat (length tiles) = 4%Z /\
     tiles !! 3%nat = Some (tile_at 0 0 (4 / 2) (2 / 2) 1 1)).
Proof.
  destruct (subdivide_bbox_partition 2 2) as [H64 HQ]; [lia | lia |].
  split.
  - destruct (H64 0 0 4 2)%float as (tiles & E & Hlen & _);
      [vm_compute; reflexivity | vm_compute; reflexivity |].
    exists tiles. split; [exact E | exact Hlen].
  - destruct (HQ 0 0 4 2) as (tiles & E & Hlen & Hat & _); [reflexivity | reflexivity |].
    exists tiles. split; [exact E |]. split; [exact Hlen |].
    apply (Hat 1%Z 1%Z); lia.
Defined.

(** ** The pixel grid *)

Lemma compute_size_eq (x1 y1 x2 y2 pix_x pix_y : Q) :
  ~ pix_x == 0 -> ~ pix_y == 0 ->
  compute_size_from_bbox_and_pixels (x1, y1, x2, y2) pix_x pix_y =
  Ok (Z.max 1 (py_round (py_max tiny (x2 - x1) / pix_x)),
      Z.max 1 (py_round (py_max tiny (y2 - y1) / pix_y))).
Proof.
  intros Hx Hy. unfold compute_size_from_bbox_and_pixels.
  rewrite (py_div_ok _ _ Hx), (py_div_ok _ _ Hy). reflexivity.
Qed.

(** With exact coordinates, for positive pixel sizes the grid is computed and
    is at least 1 by 1. *)
Lemma pixel_grid_bounds (x1 y1 x2 y2 pix_x pix_y : Q) :
  0 < pix_x -> 0 < pix_y ->
  exists width height : Z,
    compute_size_from_bbox_and_pixels (x1, y1, x2, y2) pix_x pix_y = Ok (width, height) /\
    (1 <= width)%Z /\ (1 <= height)%Z.
Proof.
  intros Hx Hy. eexists _, _. split; [apply compute_size_eq; lra |]. lia.
Qed.

(** *** The pixel grid in binary64 *)

Lemma binary64_positive_nonzero (x : float) :
  PrimFloat.ltb 0 x = true -> PrimFloat.eqb x 0 = false.
Proof.
  rewrite ltb_spec, eqb_spec. destruct (Prim2SF x) as [s | s | | s m e]; try done.
  - by destruct s.
  - by destruct s.
Qed.

Lemma binary64_py_div_ok (a b : float) :
  PrimFloat.eqb b 0 = false -> Binary64.py_div a b = Ok (a / b)%float.
Proof. intros E. unfold Binary64.py_div. by rewrite E. Qed.

Lemma binary64_to_int_finite (rounding : Q -> Z) (x : float) :
  Binary64.finite x = true -> Binary64.to_int rounding x = Ok (rounding (Binary64.value x)).
Proof.
  unfold Binary64.finite, Binary64.to_int. by destruct (Prim2SF x).
Qed.

Lemma binary64_to_int_error (rounding : Q -> Z) (x : float) :
  Binary64.finite x = false ->
  Binary64.to_int rounding x = Raise OverflowError \/
  Binary64.to_int rounding x = Raise (ValueError "cannot convert float NaN to integer").
Proof.
  unfold Binary64.finite, Binary64.to_int. destruct (Prim2SF x); try done; auto.
Qed.

Lemma binary64_py_max_gt (a b : float) :
  PrimFloat.ltb a b = true -> Binary64.py_max a b = b.
Proof. intros E. unfold Binary64.py_max. by rewrite E. Qed.

(** What the grid computation returns or raises for non-zero pixel sizes,
    according to the two quotients. *)
Lemma binary64_compute_size_eq (x1 y1 x2 y2 pix_x pix_y : float) :
  PrimFloat.eqb pix_x 0 = false -> PrimFloat.eqb pix_y 0 = false ->
  let qw := (Binary64.py_max Binary64.tiny (x2 - x1) / pix_x)%float in
  let qh := (Binary64.py_max Binary64.tiny (y2 - y1) / pix_y)%float in
  Binary64.compute_size_from_bbox_and_pixels (x1, y1, x2, y2) pix_x pix_y =
  (rw ← Binary64.round_int qw; rh ← Binary64.round_int qh; Ok (Z.max 1 rw, Z.max 1 rh)).
Proof.
  intros Hx Hy qw qh. unfold Binary64.compute_size_from_bbox_and_pixels.
  rewrite (binary64_py_div_ok _ _ Hx), (binary64_py_div_ok _ _ Hy). reflexivity.
Qed.

(** A grid that is returned is at least 1 by 1. *)
Lemma binary64_grid_ge (b : Binary64.bbox) (pix_x pix_y : float) (width height : Z) :
  Binary64.compute_size_from_bbox_and_pixels b pix_x pix_y = Ok (width, height) ->
  (1 <= width)%Z /\ (1 <= height)%Z.
Proof.
  destruct b as [[[x1 y1] x2] y2]. unfold Binary64.compute_size_from_bbox_and_pixels.
  destruct (Binary64.py_div _ pix_x) as [qw |]; [| done]. simpl.
  destruct (Binary64.round_int qw) as [rw |]; [| done]. simpl.
  destruct (Binary64.py_div _ pix_y) as [qh |]; [| done]. simpl.
  destruct (Binary64.round_int qh) as [rh |]; [| done]. simpl.
  intros [= <- <-]. lia.
Qed.

(** For non-zero pixel sizes and finite quotients the grid is returned. *)
Lemma binary64_grid_bounds (x1 y1 x2 y2 pix_x pix_y : float) :
  PrimFloat.eqb pix_x 0 = false -> PrimFloat.eqb pix_y 0 = false ->
  let qw := (Binary64.py_max Binary64.tiny (x2 - x1) / pix_x)%float in
  let qh := (Binary64.py_max Binary64.tiny (y2 - y1) / pix_y)%float in
  Binary64.finite qw = true -> Binary64.finite qh = true ->
  Binary64.compute_size_from_bbox_and_pixels (x1, y1, x2, y2) pix_x pix_y =
  Ok (Z.max 1 (py_round (Binary64.value qw)), Z.max 1 (py_round (Binary64.value qh))).
Proof.
  intros Hx Hy qw qh Hw Hh. rewrite binary64_compute_size_eq by done.
  unfold Binary64.round_int. fold qw qh.
  rewrite (binary64_to_int_finite _ _ Hw), (binary64_to_int_finite _ _ Hh). reflexivity.
Qed.

(** The outcome of the grid computation in binary64 for positive pixel
    sizes: a grid when both quotients are finite, an error otherwise. *)
Lemma binary64_grid_cases (x1 y1 x2 y2 pix_x pix_y : float) :
  PrimFloat.ltb 0 pix_x = true -> PrimFloat.ltb 0 pix_y = true ->
  let qw := (Binary64.py_max Binary64.tiny (x2 - x1) / pix_x)%float in
  let qh := (Binary64.py_max Binary64.tiny (y2 - y1) / pix_y)%float in
  let run := Binary64.compute_size_from_bbox_and_pixels (x1, y1, x2, y2) pix_x pix_y in
  (Binary64.finite qw = true -> Binary64.finite qh = true ->
   exists width height : Z,
     run = Ok (width, height) /\
     width = Z.max 1 (py_round (Binary64.value qw)) /\
     height = Z.max 1 (py_round (Binary64.value qh)) /\
     (1 <= width)%Z /\ (1 <= height)%Z /\
     (PrimFloat.ltb Binary64.tiny (x2 - x1) = true ->
        width = Z.max 1 (py_round (Binary64.value ((x2 - x1) / pix_x)))) /\
     (PrimFloat.ltb Binary64.tiny (y2 - y1) = true ->
        height = Z.max 1 (py_round (Binary64.value ((y2 - y1) / pix_y))))) /\
  (Binary64.finite qw = false \/ Binary64.finite qh = false ->
   run = Raise OverflowError \/
   run = Raise (ValueError "cannot convert float NaN to integer")).
Proof.
  intros Hx Hy qw qh run.
  apply binary64_positive_nonzero in Hx, Hy.
  split.
  - intros Hw Hh. eexists _, _. split; [by apply binary64_grid_bounds |].
    cbv zeta. repeat split; try lia.
    + intros Hgt. by rewrite (binary64_py_max_gt _ _ Hgt).
    + intros Hgt. by rewrite (binary64_py_max_gt _ _ Hgt).
  - intros Hnot. subst run. rewrite binary64_compute_size_eq by done.
    fold qw qh. unfold Binary64.round_int.
    destruct (Binary64.finite qw) eqn:Hw.
    + destruct Hnot as [| Hh]; [done |].
      rewrite (binary64_to_int_finite _ _ Hw). simpl.
      destruct (binary64_to_int_error py_round qh Hh) as [-> | ->]; auto.
    + destruct (binary64_to_int_error py_round qw Hw) as [-> | ->]; auto.
Qed.

(** C3, as stated, fails.  A rectangle of side [1e-10] at a pixel size of
    [1e-11] is given a grid of 100 by 100 pixels by the code, where the
    formula of the data model gives 10 by 10.  And at a pixel size of
    [1e-320], which is positive, the quotient of a side of 1000 is infinite
    and no grid is returned at all. *)
Lemma pixel_grid_formula_counterexample :
  (let b : Binary64.bbox := (0, 0, 1e-10, 1e-10)%float in
   let pix := 1e-11%float in
   PrimFloat.ltb 0 pix = true /\
   Binary64.compute_size_from_bbox_and_pixels b pix pix = Ok (100%Z, 100%Z) /\
   Binary64.spec_pixel_grid b pix pix = Ok (10%Z, 10%Z)) /\
  (let b : Binary64.bbox := (0, 0, 1000, 1000)%float in
   let pix := 1e-320%float in
   PrimFloat.ltb 0 pix = true /\
   Binary64.compute_size_from_bbox_and_pixels b pix pix = Raise OverflowError).
Proof. repeat split; vm_compute; reflexivity. Qed.

(** C3, amended, in binary64: for positive pixel sizes, and whenever the two
    quotients [max(1e-9, extent) / pixel size] are finite doubles, the grid is
    returned; it is [max(1, round(q))] on each axis, where [q] is that
    quotient as the machine rounds it and [round] the nearest integer of the
    double, ties to even; both numbers are at least 1; and it is the grid of
    the data model on every axis whose extent is more than [1e-9].  When a
    quotient is not finite the computation raises [OverflowError] or
    [ValueError] and returns no grid. *)
Theorem pixel_grid_formula (x1 y1 x2 y2 pix_x pix_y : float) :
  PrimFloat.ltb 0 pix_x = true -> PrimFloat.ltb 0 pix_y = true ->
  let qw := (Binary64.py_max Binary64.tiny (x2 - x1) / pix_x)%float in
  let qh := (Binary64.py_max Binary64.tiny (y2 - y1) / pix_y)%float in
  let run := Binary64.compute_size_from_bbox_and_pixels (x1, y1, x2, y2) pix_x pix_y in
  (Binary64.finite qw = true -> Binary64.finite qh = true ->
   exists width height : Z,
     run = Ok (width, height) /\
     width = Z.max 1 (py_round (Binary64.value qw)) /\
     height = Z.max 1 (py_round (Binary64.value qh)) /\
     (1 <= width)%Z /\ (1 <= height)%Z /\
     (PrimFloat.ltb Binary64.tiny (x2 - x1) = true ->
        width = Z.max 1 (py_round (Binary64.value ((x2 - x1) / pix_x)))) /\
     (PrimFloat.ltb Binary64.tiny (y2 - y1) = true ->
        height = Z.max 1 (py_round (Binary64.value ((y2 - y1) / pix_y))))) /\
  (Binary64.finite qw = false \/ Binary64.finite qh = false ->
   run = Raise OverflowError \/
   run = Raise (ValueError "cannot convert float NaN to integer")) /\
  (forall width height, run = Ok (width, height) -> (1 <= width)%Z /\ (1 <= height)%Z).
Proof.
  intros Hx Hy qw qh run.
  destruct (binary64_grid_cases x1 y1 x2 y2 pix_x pix_y Hx Hy) as [Hok Herr].
  split; [exact Hok |]. split; [exact Herr |].
  intros width height. apply binary64_grid_ge.
Qed.

Lemma pixel_grid_formula_witness :
  exists width height : Z,
    Binary64.compute_size_from_bbox_and_pixels (0, 0, 0.75, 2.5)%float 0.1 0.1
      = Ok (width, height) /\
    width = 8%Z /\ height = 25%Z.
Proof.
  destruct (pixel_grid_formula 0 0 0.75 2.5 0.1 0.1)%float as [H _];
    [vm_compute; reflexivity | vm_compute; reflexivity |].
  destruct H as (w & h & E & Hw & Hh & _); [vm_compute; reflexivity | vm_compute; reflexivity |].
  exists w, h. split; [exact E |].
  split; [rewrite Hw | rewrite Hh]; vm_compute; reflexivity.
Defined.

(** ** Tile counts and the limit on tile sizes *)

Global Instance py_max_proper : Proper (Qeq ==> Qeq ==> Qeq) py_max.
Proof.
  intros a a' Ea b b' Eb. unfold py_max.
  destruct (Qltb a b) eqn:E1; destruct (Qltb a' b') eqn:E2;
    [apply Qltb_true in E1; apply Qltb_true in E2
    |apply Qltb_true in E1; apply Qltb_false in E2
    |apply Qltb_false in E1; apply Qltb_true in E2
    |apply Qltb_false in E1; apply Qltb_false in E2]; lra.
Qed.

Lemma ceil_div_ok (a b : Z) :
  (1 <= b)%Z -> ceil_div a b = Ok (Qceiling (inject_Z a / inject_Z b)).
Proof.
  intros Hb. unfold ceil_div. rewrite py_div_ok by by apply inject_Z_nonzero. reflexivity.
Qed.





(** The counts of [tile_counts] in binary64 when a size fits. *)
Lemma binary64_counts_fit (width height limit_w limit_h nx ny : Z) :
  Binary64.tile_counts width height limit_w limit_h = Ok (nx, ny) ->
  ((width <= limit_w)%Z -> nx = 1%Z) /\ ((height <= limit_h)%Z -> ny = 1%Z).
Proof.
  unfold Binary64.tile_counts. intros E. split; intros Hfit.
  - destruct (Z.ltb_spec limit_w width) as [| _]; [lia |]. simpl in E.
    destruct (if (limit_h <? height)%Z then _ else _); [| done]. by injection E.
  - destruct (if (limit_w <? width)%Z then _ else _); [| done]. simpl in E.
    destruct (Z.ltb_spec limit_h height) as [| _]; [lia |]. by injection E.
Qed.







(** ** Clipping to the service extent *)

Ltac abstract_minmax :=
  repeat match goal with
  | |- context [Qmax ?a ?b] =>
      pose proof (Q.max_spec a b); generalize dependent (Qmax a b); intros
  | |- context [Qmin ?a ?b] =>
      pose proof (Q.min_spec a b); generalize dependent (Qmin a b); intros
  | H : context [Qmax ?a ?b] |- _ =>
      pose proof (Q.max_spec a b); generalize dependent (Qmax a b); intros
  | H : context [Qmin ?a ?b] |- _ =>
      pose proof (Q.min_spec a b); generalize dependent (Qmin a b); intros
  end.

Ltac split_cases :=
  repeat match goal with
  | H : _ /\ _ |- _ => destruct H
  | H : _ \/ _ |- _ => destruct H
  end.

(** What [clip_bbox_to_service_extent] does once the metadata document has
    been received and declares an extent with four numbers. *)
Lemma clip_run (w : world) (t : trace) (target : string) (x1 y1 x2 y2 : Q)
    (info ext : json) (xmin ymin xmax ymax : Q) :
  get_json w t target pjson = Ok info ->
  dict_get info "extent" = Ok ext -> truthy ext = true ->
  subscript ext "xmin" = Ok (JNum xmin) -> subscript ext "ymin" = Ok (JNum ymin) ->
  subscript ext "xmax" = Ok (JNum xmax) -> subscript ext "ymax" = Ok (JNum ymax) ->
  clip_bbox_to_service_extent (x1, y1, x2, y2) target w t =
  (match shapely.intersection (shapely.box x1 y1 x2 y2) (shapely.box xmin ymin xmax ymax) with
   | shapely.Empty => Raise out_of_extent
   | shapely.Rect a b c d => Ok (a, b, c, d)
   end, t ++ [EvGet target pjson]).
Proof.
  intros Hget Hext Htrue Hxmin Hymin Hxmax Hymax.
  unfold clip_bbox_to_service_extent, _get_json, call, lift, mbind, io_bind, mret, io_ret.
  rewrite Hget, Hext, Htrue. cbn [negb].
  rewrite Hxmin, Hymin, Hxmax, Hymax. cbn [as_float].
  generalize (shapely.intersection (shapely.box x1 y1 x2 y2)
                                   (shapely.box xmin ymin xmax ymax)).
  intros [|]; reflexivity.
Qed.

Lemma Qmin_lt (a b : Q) : a < b -> Qmin a b = a.
Proof.
  intros H. unfold Qmin, GenericMinMax.gmin.
  destruct (a ?= b) eqn:E; [done | done |]. apply Qgt_alt in E. lra.
Qed.

Lemma Qmax_lt (a b : Q) : a < b -> Qmax a b = b.
Proof.
  intros H. unfold Qmax, GenericMinMax.gmax.
  destruct (a ?= b) eqn:E; [| done |].
  - apply Qeq_alt in E. lra.
  - apply Qgt_alt in E. lra.
Qed.

Lemma box_ordered (x1 y1 x2 y2 : Q) :
  x1 < x2 -> y1 < y2 -> shapely.box x1 y1 x2 y2 = shapely.Rect x1 y1 x2 y2.
Proof.
  intros Hx Hy. unfold shapely.box.
  by rewrite (Qmin_lt _ _ Hx), (Qmin_lt _ _ Hy), (Qmax_lt _ _ Hx), (Qmax_lt _ _ Hy).
Qed.

Lemma intersection_spec (x1 y1 x2 y2 xmin ymin xmax ymax : Q) :
  x1 < x2 -> y1 < y2 -> xmin < xmax -> ymin < ymax ->
  match shapely.intersection (shapely.box x1 y1 x2 y2) (shapely.box xmin ymin xmax ymax) with
  | shapely.Empty =>
      forall px py, ~ (in_rect (x1, y1, x2, y2) px py /\ in_rect (xmin, ymin, xmax, ymax) px py)
  | shapely.Rect a b c d =>
      a <= c /\ b <= d /\
      (a, b, c, d) = (Qmax x1 xmin, Qmax y1 ymin, Qmin x2 xmax, Qmin y2 ymax) /\
      forall px py, in_rect (a, b, c, d) px py <->
                    in_rect (x1, y1, x2, y2) px py /\ in_rect (xmin, ymin, xmax, ymax) px py
  end.
Proof.
  intros Hx Hy Hex Hey. rewrite !box_ordered by done. unfold shapely.intersection.
  destruct (Qltb _ _ || Qltb _ _) eqn:E.
  - apply orb_true_iff in E. rewrite !Qltb_true in E.
    intros px py. unfold in_rect. intros [? ?].
    abstract_minmax. split_cases; lra.
  - apply orb_false_iff in E. rewrite !Qltb_false in E. destruct E as [E1 E2].
    split; [done |]. split; [done |]. split; [done |].
    intros px py. unfold in_rect. clear E1 E2.
    abstract_minmax. split_cases; split; intros; split_cases; repeat split; lra.
Qed.

(** The two outcomes of clipping against a declared extent. *)
Lemma clip_cases (w : world) (t : trace) (target : string) (x1 y1 x2 y2 : Q)
    (info ext : json) (xmin ymin xmax ymax : Q) :
  x1 < x2 -> y1 < y2 -> xmin < xmax -> ymin < ymax ->
  get_json w t target pjson = Ok info ->
  dict_get info "extent" = Ok ext -> truthy ext = true ->
  subscript ext "xmin" = Ok (JNum xmin) -> subscript ext "ymin" = Ok (JNum ymin) ->
  subscript ext "xmax" = Ok (JNum xmax) -> subscript ext "ymax" = Ok (JNum ymax) ->
  let common px py :=
    in_rect (x1, y1, x2, y2) px py /\ in_rect (xmin, ymin, xmax, ymax) px py in
  let r := (clip_bbox_to_service_extent (x1, y1, x2, y2) target w t).1 in
  (r = Raise out_of_extent <-> ~ exists px py, common px py) /\
  ((exists px py, common px py) ->
     r = Ok (Qmax x1 xmin, Qmax y1 ymin, Qmin x2 xmax, Qmin y2 ymax) /\
     forall px py,
       in_rect (Qmax x1 xmin, Qmax y1 ymin, Qmin x2 xmax, Qmin y2 ymax) px py <->
       common px py).
Proof.
  intros Hx Hy Hex Hey Hget Hext Htrue Hxmin Hymin Hxmax Hymax common r.
  subst r. rewrite (clip_run _ _ _ _ _ _ _ info ext xmin ymin xmax ymax) by done.
  pose proof (intersection_spec x1 y1 x2 y2 xmin ymin xmax ymax Hx Hy Hex Hey) as Hs.
  destruct (shapely.intersection _ _) as [| a b c d]; cbn [fst].
  - split.
    + split; [| done]. intros _ (px & py & Hc). by apply (Hs px py).
    + intros (px & py & Hc). by destruct (Hs px py).
  - destruct Hs as (Hac & Hbd & E & Hpts).
    assert (common a b) as Hc by (apply Hpts; unfold in_rect; repeat split; lra).
    split.
    + split; [done |]. intros Hno. destruct Hno. eauto.
    + intros _. rewrite <- E. split; [done | exact Hpts].
Qed.

(** C5: when the metadata declares an extent, clipping a rectangle raises the
    out-of-extent error exactly when no point belongs to both the rectangle
    and the extent; otherwise it returns the rectangle whose points are the
    points common to both, bounded by the larger of the two lower bounds and
    the smaller of the two upper bounds on each axis. *)
Theorem clip_to_extent (w : world) (t : trace) (target : string) (x1 y1 x2 y2 : Q)
    (info ext : json) (xmin ymin xmax ymax : Q) :
  x1 < x2 -> y1 < y2 -> xmin < xmax -> ymin < ymax ->
  get_json w t target pjson = Ok info ->
  dict_get info "extent" = Ok ext -> truthy ext = true ->
  subscript ext "xmin" = Ok (JNum xmin) -> subscript ext "ymin" = Ok (JNum ymin) ->
  subscript ext "xmax" = Ok (JNum xmax) -> subscript ext "ymax" = Ok (JNum ymax) ->
  let common px py :=
    in_rect (x1, y1, x2, y2) px py /\ in_rect (xmin, ymin, xmax, ymax) px py in
  let r := (clip_bbox_to_service_extent (x1, y1, x2, y2) target w t).1 in
  (r = Raise out_of_extent <-> ~ exists px py, common px py) /\
  ((exists px py, common px py) ->
     r = Ok (Qmax x1 xmin, Qmax y1 ymin, Qmin x2 xmax, Qmin y2 ymax) /\
     forall px py,
       in_rect (Qmax x1 xmin, Qmax y1 ymin, Qmin x2 xmax, Qmin y2 ymax) px py <->
       common px py).
Proof.
  intros Hx Hy Hex Hey Hget Hext Htrue Hxmin Hymin Hxmax Hymax.
  exact (clip_cases w t target x1 y1 x2 y2 info ext xmin ymin xmax ymax
           Hx Hy Hex Hey Hget Hext Htrue Hxmin Hymin Hxmax Hymax).
Qed.

Lemma clip_to_extent_witness :
  (clip_bbox_to_service_extent (10, 10, 120, 60) "svc"
     (sample_world sample_info (Ok []) (Ok tt) (Ok tt)) []).1 =
  Ok (Qmax 10 0, Qmax 10 0, Qmin 120 100, Qmin 60 50).
Proof.
  refine (proj1 (proj2 (clip_to_extent (sample_world sample_info (Ok []) (Ok tt) (Ok tt))
            [] "svc" 10 10 120 60 sample_info sample_extent 0 0 100 50
            _ _ _ _ _ _ _ _ _ _ _) _)); try reflexivity.
  exists 10, 10. unfold in_rect. repeat split; discriminate.
Defined.

(** The difference of a finite double with itself is zero. *)
Lemma binary64_sub_diag (x : float) : Binary64.finite x = true -> (x - x)%float = 0%float.
Proof.
  unfold Binary64.finite. intros H.
  rewrite <- (SF2Prim_Prim2SF (x - x)), sub_spec.
  destruct (Prim2SF x) as [s | s | | s m e]; try done.
  - by destruct s.
  - unfold SF64sub, SFsub. rewrite Z.sub_diag. reflexivity.
Qed.

(** C9, as stated, fails in its second half.  The request from (100, 10) to
    (120, 60) touches the extent from (0, 0) to (100, 50) along a side, and
    the clip returns the rectangle from (100, 10) to (100, 50); but at a pixel
    size of [1e-320], which is positive, the quotient [1e-9 / 1e-320] is
    infinite and the pixel grid of that rectangle is not computed. *)
Lemma clip_touching_extent_counterexample :
  (clip_bbox_to_service_extent (100, 10, 120, 60) "svc"
     (sample_world sample_info (Ok []) (Ok tt) (Ok tt)) []).1 = Ok (100, 10, 100, 50) /\
  PrimFloat.ltb 0 1e-320 = true /\
  Binary64.compute_size_from_bbox_and_pixels (100, 10, 100, 50)%float 1e-320 1e-320
    = Raise OverflowError.
Proof. repeat split; vm_compute; reflexivity. Qed.

(** C9, amended: when the rectangle and the declared extent only touch (one
    side of the rectangle lies on the opposite side of the extent, and they
    have a point in common), clipping raises nothing and returns a rectangle
    with [minx = maxx] or [miny = maxy]; with exact coordinates the pixel grid
    of that rectangle is computed without error for positive pixel sizes and
    is at least 1 by 1.  In binary64, for positive pixel sizes, an axis on
    which the two bounds are the same finite double counts as [1e-9] long;
    the grid is returned exactly when the two quotients
    [max(1e-9, extent) / pixel size] are finite, and is then at least 1 by 1;
    otherwise the computation raises [OverflowError] or [ValueError]. *)
Theorem clip_touching_extent (w : world) (t : trace) (target : string) (x1 y1 x2 y2 : Q)
    (info ext : json) (xmin ymin xmax ymax : Q) :
  x1 < x2 -> y1 < y2 -> xmin < xmax -> ymin < ymax ->
  get_json w t target pjson = Ok info ->
  dict_get info "extent" = Ok ext -> truthy ext = true ->
  subscript ext "xmin" = Ok (JNum xmin) -> subscript ext "ymin" = Ok (JNum ymin) ->
  subscript ext "xmax" = Ok (JNum xmax) -> subscript ext "ymax" = Ok (JNum ymax) ->
  (exists px py,
     in_rect (x1, y1, x2, y2) px py /\ in_rect (xmin, ymin, xmax, ymax) px py) ->
  x2 == xmin \/ xmax == x1 \/ y2 == ymin \/ ymax == y1 ->
  (exists a b c d,
     (clip_bbox_to_service_extent (x1, y1, x2, y2) target w t).1 = Ok (a, b, c, d) /\
     (a == c \/ b == d) /\ ~ (a < c /\ b < d) /\
     forall pix_x pix_y, 0 < pix_x -> 0 < pix_y ->
       exists width height,
         compute_size_from_bbox_and_pixels (a, b, c, d) pix_x pix_y = Ok (width, height) /\
         (1 <= width)%Z /\ (1 <= height)%Z) /\
  (forall a b c d pix_x pix_y : float,
     PrimFloat.ltb 0 pix_x = true -> PrimFloat.ltb 0 pix_y = true ->
     let qw := (Binary64.py_max Binary64.tiny (c - a) / pix_x)%float in
     let qh := (Binary64.py_max Binary64.tiny (d - b) / pix_y)%float in
     let run := Binary64.compute_size_from_bbox_and_pixels (a, b, c, d) pix_x pix_y in
     (a = c -> Binary64.finite a = true -> qw = (Binary64.tiny / pix_x)%float) /\
     (b = d -> Binary64.finite b = true -> qh = (Binary64.tiny / pix_y)%float) /\
     (Binary64.finite qw = true -> Binary64.finite qh = true ->
      exists width height,
        run = Ok (width, height) /\
        width = Z.max 1 (py_round (Binary64.value qw)) /\
        height = Z.max 1 (py_round (Binary64.value qh)) /\
        (1 <= width)%Z /\ (1 <= height)%Z) /\
     (Binary64.finite qw = false \/ Binary64.finite qh = false ->
      run = Raise OverflowError \/
      run = Raise (ValueError "cannot convert float NaN to integer"))).
Proof.
  intros Hx Hy Hex Hey Hget Hext Htrue Hxmin Hymin Hxmax Hymax Hcommon Htouch.
  split.
  - destruct (clip_cases w t target x1 y1 x2 y2 info ext xmin ymin xmax ymax)
      as [_ Hclip]; try done.
    destruct (Hclip Hcommon) as [E _].
    eexists _, _, _, _. split; [exact E |].
    assert (Qmax x1 xmin == Qmin x2 xmax \/ Qmax y1 ymin == Qmin y2 ymax) as Hdeg.
    { clear E Hclip. destruct Hcommon as (px & py & Hc). unfold in_rect in Hc.
      abstract_minmax. split_cases; (left; lra) || (right; lra). }
    split; [exact Hdeg |]. split; [intros [? ?]; destruct Hdeg; lra |].
    intros pix_x pix_y Hpx Hpy.
    destruct (pixel_grid_bounds (Qmax x1 xmin) (Qmax y1 ymin) (Qmin x2 xmax) (Qmin y2 ymax)
                pix_x pix_y Hpx Hpy) as (width & height & ? & ? & ?).
    eauto.
  - intros a b c d pix_x pix_y Hpx Hpy qw qh run.
    assert (forall v, Binary64.finite v = true ->
              Binary64.py_max Binary64.tiny (v - v) = Binary64.tiny) as Hfloor.
    { intros v Hv. by rewrite binary64_sub_diag. }
    split; [intros <- Ha; subst qw; by rewrite Hfloor |].
    split; [intros <- Hb; subst qh; by rewrite Hfloor |].
    destruct (binary64_grid_cases a b c d pix_x pix_y Hpx Hpy) as [Hok Herr].
    split; [| exact Herr].
    intros Hw Hh. destruct (Hok Hw Hh) as (width & height & E & -> & -> & _).
    eexists _, _. split; [exact E |]. repeat split; lia.
Qed.

Lemma clip_touching_extent_witness :
  exists a b c d,
    (clip_bbox_to_service_extent (100, 10, 120, 60) "svc"
       (sample_world sample_info (Ok []) (Ok tt) (Ok tt)) []).1 = Ok (a, b, c, d) /\
    (a == c \/ b == d).
Proof.
  destruct (clip_touching_extent (sample_world sample_info (Ok []) (Ok tt) (Ok tt))
              [] "svc" 100 10 120 60 sample_info sample_extent 0 0 100 50)
    as [(a & b & c & d & E & Hdeg & _) _]; try reflexivity.
  - exists 100, 10. unfold in_rect. repeat split; discriminate.
  - right. left. reflexivity.
  - exists a, b, c, d. split; [exact E | exact Hdeg].
Defined.

(** C10: when the metadata document is an object whose ["extent"] entry is
    absent, null or empty, clipping returns the rectangle it was given and
    raises nothing; the only call made is the metadata request. *)
Theorem clip_without_extent (w : world) (t : trace) (target : string) (b : bbox)
    (d : list (string * json)) :
  get_json w t target pjson = Ok (JDict d) ->
  truthy (default JNull (assoc "extent" d)) = false ->
  clip_bbox_to_service_extent b target w t = (Ok b, t ++ [EvGet target pjson]).
Proof.
  intros Hget Hfalse.
  unfold clip_bbox_to_service_extent, _get_json, call, lift, mbind, io_bind, mret, io_ret.
  rewrite Hget. cbn [dict_get]. rewrite Hfalse. reflexivity.
Qed.

Lemma clip_without_extent_witness :
  clip_bbox_to_service_extent (10, 10, 120, 60) "svc"
    (sample_world (JDict [("name", JStr "Aerials")]) (Ok []) (Ok tt) (Ok tt)) [] =
  (Ok (10, 10, 120, 60), [EvGet "svc" pjson]).
Proof.
  apply (clip_without_extent
           (sample_world (JDict [("name", JStr "Aerials")]) (Ok []) (Ok tt) (Ok tt))
           [] "svc" (10, 10, 120, 60) [("name", JStr "Aerials")]); reflexivity.
Defined.

(** ** Traces of the workflows *)

Lemma adds_ret {A} (P : event -> Prop) (a : A) : adds P (mret a).
Proof. intros w t. exists []. by rewrite app_nil_r. Qed.

Lemma adds_lift {A} (P : event -> Prop) (r : result A) : adds P (lift r).
Proof. intros w t. exists []. by rewrite app_nil_r. Qed.

Lemma adds_ask (P : event -> Prop) : adds P ask.
Proof. intros w t. exists []. by rewrite app_nil_r. Qed.

Lemma adds_call {A} (P : event -> Prop) (ev : event) (answer : world -> trace -> result A) :
  P ev -> adds P (call ev answer).
Proof. intros H w t. exists [ev]. split; [done | by constructor]. Qed.

Lemma adds_bind {A B} (P : event -> Prop) (m : io A) (k : A -> io B) :
  adds P m -> (forall a, adds P (k a)) -> adds P (m ≫= k).
Proof.
  intros Hm Hk w t. unfold mbind, io_bind.
  destruct (Hm w t) as (a1 & E1 & H1).
  destruct (m w t) as [[a | e] t']; simpl in E1; subst t'.
  - destruct (Hk a w (t ++ a1)) as (a2 & E2 & H2).
    exists (a1 ++ a2). rewrite E2, app_assoc. split; [done | by apply Forall_app].
  - by exists a1.
Qed.

Lemma adds_suppress (P : event -> Prop) (m : io unit) : adds P m -> adds P (suppress m).
Proof. intros Hm w t. exact (Hm w t). Qed.

Lemma adds_for_each {A} (P : event -> Prop) (l : list A) (body : A -> io unit) :
  (forall x, adds P (body x)) -> adds P (for_each l body).
Proof.
  intros Hb. induction l as [| x l IH]; simpl.
  - apply adds_ret.
  - apply adds_bind; [apply Hb | intros _; apply IH].
Qed.

Lemma adds_collect {A B} (P : event -> Prop) (l : list A) (body : A -> io B) (acc : list B) :
  (forall x, adds P (body x)) -> adds P (collect acc l body).
Proof.
  intros Hb. revert acc. induction l as [| x l IH]; intros acc; simpl.
  - apply adds_ret.
  - apply adds_bind; [apply Hb | intros y; apply IH].
Qed.

Ltac adds_step :=
  lazymatch goal with
  | |- adds _ (mret _) => apply adds_ret
  | |- adds _ (lift _) => apply adds_lift
  | |- adds _ ask => apply adds_ask
  | |- adds _ (call _ _) => apply adds_call
  | |- adds _ (suppress _) => apply adds_suppress
  | |- adds _ (for_each _ _) => apply adds_for_each; intros ?
  | |- adds _ (collect _ _ _) => apply adds_collect; intros ?
  | |- adds _ (_ ≫= _) => apply adds_bind; [| intros ?]
  | |- adds _ (let '(_, _) := ?p in _) => destruct p
  | |- adds _ (if ?b then _ else _) => destruct b
  | |- adds _ (match ?o with Some _ => _ | None => _ end) => destruct o
  end.

Ltac adds_steps := repeat adds_step.

Section Adds.

Variable P : event -> Prop.
Variable service : ServiceInfo.
Hypothesis P_transform : forall crs lon lat, P (EvTransform crs lon lat).
Hypothesis P_metadata : P (EvGet (url service) pjson).
Hypothesis P_mkdir : forall p, P (EvMkdir p).
Hypothesis P_export : forall w b size token,
  P (EvGet (url service +:+ "/exportImage") (export_params w service b size token)).
Hypothesis P_write : forall p c, P (EvWriteBytes p c).
Hypothesis P_vrt : forall p l, P (EvBuildVRT p l).
Hypothesis P_translate : forall d s o, P (EvTranslate d s o).
Hypothesis P_remove : forall p, P (EvRemove p).
Hypothesis P_unlink : forall p, P (EvUnlink p).

Lemma adds_clip (b : bbox) : adds P (clip_bbox_to_service_extent b (url service)).
Proof.
  unfold clip_bbox_to_service_extent, _get_json.
  adds_steps; done.
Qed.

Lemma adds_export_image (b : bbox) (size : Z * Z) (path : string) (token : option string) :
  adds P (export_image service b size path token).
Proof. unfold export_image. adds_steps; done. Qed.

Lemma adds_mosaic (parts : list string) (out : string) (blocksize : Z) (compress : string) :
  adds P (mosaic_and_write_cog parts out blocksize compress).
Proof.
  unfold mosaic_and_write_cog, gdal_translate.
  destruct parts as [| p [| q l]]; adds_steps; done.
Qed.

Lemma adds_cleanup (keep : bool) (parts : list string) : adds P (cleanup_parts keep parts).
Proof. unfold cleanup_parts. adds_steps; done. Qed.

Lemma adds_export_tiles (b : bbox) (pix_x pix_y : Q) (part_path : Z -> string)
    (out : string) (token : option string) (blocksize : Z) (compress : string)
    (keep : bool) (before_loop : io unit) :
  adds P before_loop ->
  adds P (export_tiles service b pix_x pix_y part_path out token blocksize compress
            keep before_loop).
Proof.
  intros Hb. unfold export_tiles.
  adds_steps; try done;
    first [apply adds_export_image | apply adds_mosaic | apply adds_cleanup].
Qed.

Lemma adds_run_bbox_mode (args : bbox_args) : adds P (run_bbox_mode service args).
Proof.
  unfold run_bbox_mode, transform_bbox_wgs84_to_service, transform_point.
  destruct (pixel_sizes _ _). destruct (ba_bbox args) as [[[? ?] ?] ?].
  adds_steps; try done;
    first [apply adds_clip | apply adds_export_tiles; by apply adds_call].
Qed.

Lemma adds_run_csv_row (args : csv_args) (pix_x pix_y buf_dist : Q) (out_dir : string)
    (row : csv_row) :
  adds P (run_csv_row service args pix_x pix_y buf_dist out_dir row).
Proof.
  unfold run_csv_row, transform_point.
  adds_steps; try done;
    first [apply adds_clip | apply adds_export_tiles; apply adds_ret].
Qed.

Lemma adds_run_csv_mode (args : csv_args) (rows : list csv_row) :
  adds P (run_csv_mode service args rows).
Proof.
  unfold run_csv_mode. destruct (pixel_sizes _ _).
  adds_steps; try done; apply adds_run_csv_row.
Qed.

End Adds.

(** ** Export requests *)

Lemma export_params_native (w : world) (service : ServiceInfo) (b : bbox) (size : Z * Z)
    (token : option string) :
  let params := export_params w service b size token in
  params !! "bboxSR" = Some (str_int (wkid service)) /\
  params !! "imageSR" = Some (str_int (wkid service)) /\
  params !! "interpolation" = Some "RSP_NearestNeighbor" /\
  params !! "size" = Some (str_int size.1 +:+ "," +:+ str_int size.2).
Proof.
  destruct b as [[[x1 y1] x2] y2]. unfold export_params.
  destruct token as [tok |]; [destruct (String.eqb tok "") |];
    repeat split; by simplify_map_eq.
Qed.

(** C7: [export_image] sends one request to the export endpoint whose
    [bboxSR] and [imageSR] are both the identifier of the service and whose
    [interpolation] is nearest neighbour; and every request that either
    workflow sends is the metadata request or such an export. *)
Theorem export_requests_native (service : ServiceInfo) :
  (forall b size path token w t,
     exists params rest,
       (export_image service b size path token w t).2 =
         t ++ EvGet (url service +:+ "/exportImage") params :: rest /\
       params !! "bboxSR" = Some (str_int (wkid service)) /\
       params !! "imageSR" = params !! "bboxSR" /\
       params !! "interpolation" = Some "RSP_NearestNeighbor") /\
  (forall args, adds (native_request service) (run_bbox_mode service args)) /\
  (forall args rows, adds (native_request service) (run_csv_mode service args rows)).
Proof.
  assert (forall w b size token,
            native_request service
              (EvGet (url service +:+ "/exportImage") (export_params w service b size token)))
    as Hexport.
  { intros w b size token. right.
    destruct (export_params_native w service b size token) as (? & ? & ? & _). done. }
  split; [| split].
  - intros b size path token w t.
    destruct (export_params_native w service b size token) as (Hb & Hi & Hn & _).
    exists (export_params w service b size token).
    unfold export_image, call, ask, mbind, io_bind, mret, io_ret. cbn beta iota.
    destruct (get_content w t _ _) as [content | e].
    + destruct (write_bytes w _ _ _); eexists; rewrite <- app_assoc;
        (split; [reflexivity |]); rewrite Hi; done.
    + exists []. rewrite Hi. done.
  - intros args. apply adds_run_bbox_mode; try done. by left.
  - intros args rows. apply adds_run_csv_mode; try done. by left.
Qed.

(** ** The buffered square *)



(** ** Removal of the intermediate parts *)

Lemma unlinked_app (a b : trace) : unlinked (a ++ b) = unlinked a ++ unlinked b.
Proof. unfold unlinked. apply bind_app. Qed.

Lemma written_app (a b : trace) : written (a ++ b) = written a ++ written b.
Proof. unfold written. apply bind_app. Qed.

Lemma quiet_silent (a : trace) : Forall quiet a -> unlinked a = [] /\ written a = [].
Proof.
  induction 1 as [| ev a Hev _ [IH1 IH2]]; [done |].
  change (ev :: a) with ([ev] ++ a). rewrite unlinked_app, written_app, IH1, IH2.
  by destruct ev.
Qed.

Lemma unlinked_unlinks (parts : list string) :
  unlinked (EvUnlink <$> parts) = parts /\ written (EvUnlink <$> parts) = [].
Proof.
  induction parts as [| p parts [IH1 IH2]]; [done |].
  rewrite fmap_cons. change (EvUnlink p :: ?l) with ([EvUnlink p] ++ l).
  rewrite unlinked_app, written_app, IH1, IH2. done.
Qed.

(** The removal loop asks for the removal of every part, in order, and
    returns normally whatever the answers are. *)
Lemma cleanup_parts_run (keep : bool) (parts : list string) (w : world) (t : trace) :
  cleanup_parts keep parts w t =
  (Ok tt, t ++ (if keep then [] else EvUnlink <$> parts)).
Proof.
  unfold cleanup_parts. destruct keep; simpl.
  - unfold mret, io_ret. by rewrite app_nil_r.
  - revert t. induction parts as [| p parts IH]; intros t; simpl.
    + unfold mret, io_ret. by rewrite app_nil_r.
    + unfold mbind, io_bind, suppress, call. simpl.
      rewrite IH, <- app_assoc. reflexivity.
Qed.

Lemma bind_run {A B} (m : io A) (k : A -> io B) (w : world) (t : trace) :
  (m ≫= k) w t =
  match m w t with
  | (Ok a, t') => k a w t'
  | (Raise e, t') => (Raise e, t')
  end.
Proof. reflexivity. Qed.

Lemma cleans_bind_quiet {A} (keep : bool) (m : io A) (k : A -> io unit) :
  adds quiet m -> (forall a, cleans keep (k a)) -> cleans keep (m ≫= k).
Proof.
  intros Hm Hk w t. unfold mbind, io_bind.
  destruct (Hm w t) as (a1 & E1 & H1). apply quiet_silent in H1 as [Hu Hw].
  destruct (m w t) as [[a | e] t']; simpl in E1; subst t'.
  - destruct (Hk a w (t ++ a1)) as (a2 & E2 & H2).
    exists (a1 ++ a2). rewrite E2, app_assoc. split; [done |].
    rewrite unlinked_app, written_app, Hu, Hw. exact H2.
  - exists a1. done.
Qed.

Section Cleanup.

Variables (service : ServiceInfo) (pix_x pix_y : Q) (part_path : Z -> string)
          (token : option string).

Let fetch (it : Z * bbox) : io string :=
  let '(i, tile) := it in
  '(tw, th) ← lift (compute_size_from_bbox_and_pixels tile pix_x pix_y);
  export_image service tile (tw, th) (part_path i) token.

(** One export writes at most one file, the one it returns, and removes
    nothing. *)
Lemma fetch_run (it : Z * bbox) (w : world) (t : trace) :
  exists added, (fetch it w t).2 = t ++ added /\ unlinked added = [] /\
    forall p, (fetch it w t).1 = Ok p -> written added = [p].
Proof.
  destruct it as [i tile]. unfold fetch, lift, mbind, io_bind.
  destruct (compute_size_from_bbox_and_pixels tile pix_x pix_y) as [[tw th] | e].
  - unfold export_image, ask, call, mbind, io_bind, mret, io_ret. cbn beta iota.
    destruct (get_content w t _ _) as [content | e].
    + destruct (write_bytes w _ _ _); eexists; rewrite <- app_assoc;
        (split; [reflexivity |]); split; try done; by intros p [= <-].
    + eexists. split; [reflexivity |]. done.
  - exists []. rewrite app_nil_r. done.
Qed.

(** The loop over the tiles returns the files it wrote. *)
Lemma collect_run (tiles : list (Z * bbox)) (acc : list string) (w : world) (t : trace) :
  exists added, (collect acc tiles fetch w t).2 = t ++ added /\ unlinked added = [] /\
    forall parts, (collect acc tiles fetch w t).1 = Ok parts ->
                  parts = acc ++ written added.
Proof.
  revert acc t. induction tiles as [| it tiles IH]; intros acc t; simpl.
  - exists []. rewrite !app_nil_r. split; [done |]. split; [done |]. by intros ? [= <-].
  - unfold mbind, io_bind.
    destruct (fetch_run it w t) as (a1 & E1 & Hu1 & Hw1).
    destruct (fetch it w t) as [[p | e] t']; simpl in E1; subst t'.
    + destruct (IH (acc ++ [p]) (t ++ a1)) as (a2 & E2 & Hu2 & Hw2).
      exists (a1 ++ a2). rewrite E2, app_assoc. split; [done |].
      rewrite unlinked_app, written_app, Hu1, Hu2, (Hw1 p) by done.
      split; [done |]. intros parts Hp. rewrite (Hw2 parts Hp), <- app_assoc. done.
    + exists a1. done.
Qed.

Lemma cleans_export_tiles (b : bbox) (out : string) (blocksize : Z) (compress : string)
    (keep : bool) (before_loop : io unit) :
  adds quiet before_loop ->
  cleans keep (export_tiles service b pix_x pix_y part_path out token blocksize compress
                 keep before_loop).
Proof.
  intros Hb. unfold export_tiles.
  apply cleans_bind_quiet; [apply adds_lift | intros [width height]].
  apply cleans_bind_quiet; [apply adds_lift | intros [nx ny]].
  apply cleans_bind_quiet; [apply adds_lift | intros tiles].
  apply cleans_bind_quiet; [exact Hb | intros _].
  intros w t.
  change (exists added,
    ((collect [] (enumerate1 tiles) fetch ≫= fun parts =>
      mosaic_and_write_cog parts out blocksize compress ≫= fun _ =>
      cleanup_parts keep parts) w t).2 = t ++ added /\
    match ((collect [] (enumerate1 tiles) fetch ≫= fun parts =>
            mosaic_and_write_cog parts out blocksize compress ≫= fun _ =>
            cleanup_parts keep parts) w t).1 with
    | Ok _ => unlinked added = if keep then [] else written added
    | Raise _ => unlinked added = []
    end).
  rewrite (bind_run (collect _ _ _)).
  destruct (collect_run (enumerate1 tiles) [] w t) as (a1 & E1 & Hu1 & Hw1).
  destruct (collect [] (enumerate1 tiles) fetch w t) as [[parts | e] t']; simpl in E1; subst t'.
  - rewrite (Hw1 parts eq_refl). simpl app. clear Hw1.
    rewrite (bind_run (mosaic_and_write_cog _ _ _ _)).
    assert (adds quiet (mosaic_and_write_cog (written a1) out blocksize compress)) as Hm.
    { apply (adds_mosaic quiet); done. }
    destruct (Hm w (t ++ a1)) as (a2 & E2 & H2). apply quiet_silent in H2 as [Hu2 Hw2].
    destruct (mosaic_and_write_cog _ _ _ _ w (t ++ a1)) as [[o | e] t']; simpl in E2; subst t'.
    + rewrite cleanup_parts_run. eexists. rewrite <- !app_assoc. split; [reflexivity |].
      cbn [fst]. rewrite !unlinked_app, !written_app, Hu1, Hu2, Hw2.
      destruct keep; [by rewrite !app_nil_r |].
      destruct (unlinked_unlinks (written a1)) as [-> ->]. by rewrite !app_nil_r.
    + eexists. rewrite <- app_assoc. split; [reflexivity |].
      cbn [fst]. by rewrite unlinked_app, Hu1, Hu2.
  - exists a1. done.
Qed.

End Cleanup.

(** C8, as stated, fails: when the encoder fails, the export raises and the
    part that was written is still there; no removal was asked for. *)
Lemma cleanup_on_failure_counterexample :
  let w := sample_world sample_info (Ok []) (Raise GDALError) (Ok tt) in
  (run_bbox_mode sample_service sample_args w []).1 = Raise GDALError /\
  written (run_bbox_mode sample_service sample_args w []).2 = ["/data/aoi_part001.tif"] /\
  unlinked (run_bbox_mode sample_service sample_args w []).2 = [].
Proof. vm_compute. done. Qed.

(** C8, amended: in both workflows the removal of the parts is asked for only
    when the export has succeeded: if an export returns, the parts it asked to
    remove are exactly the parts it wrote (none when the caller keeps them),
    and if it raises, it asked for no removal.  The removal loop itself always
    returns normally, whatever the answers to the removals are. *)
Theorem cleanup_after_success_only (service : ServiceInfo) :
  (forall args, cleans (ba_keep_parts args) (run_bbox_mode service args)) /\
  (forall args pix_x pix_y buf_dist out_dir row,
     cleans (ca_keep_parts args)
       (run_csv_row service args pix_x pix_y buf_dist out_dir row)) /\
  (forall keep parts w t,
     (cleanup_parts keep parts w t).1 = Ok tt /\
     unlinked (cleanup_parts keep parts w t).2 =
       unlinked t ++ (if keep then [] else parts)).
Proof.
  split; [| split].
  - intros args. unfold run_bbox_mode.
    destruct (pixel_sizes _ _) as [pix_x pix_y].
    apply cleans_bind_quiet.
    { unfold transform_bbox_wgs84_to_service, transform_point.
      destruct (ba_bbox args) as [[[? ?] ?] ?]. adds_steps; done. }
    intros b. apply cleans_bind_quiet; [apply (adds_clip quiet); done | intros b'].
    apply cleans_bind_quiet; [apply adds_ask | intros w].
    apply cleans_export_tiles. by apply adds_call.
  - intros args pix_x pix_y buf_dist out_dir row. unfold run_csv_row.
    apply cleans_bind_quiet; [unfold transform_point; by apply adds_call | intros [x y]].
    apply cleans_bind_quiet; [apply (adds_clip quiet); done | intros b].
    apply cleans_export_tiles. apply adds_ret.
  - intros keep parts w t. rewrite cleanup_parts_run. simpl. split; [done |].
    rewrite unlinked_app. destruct keep; [done |].
    by destruct (unlinked_unlinks parts) as [-> _].
Qed.

(** * Further properties of the helpers *)

(** ** Tile counts *)

(** X1: with the quotient [size / limit] taken exactly, and a limit of at
    least one pixel per axis, [tile_counts] returns the least count whose
    tiles can hold the size: one tile fewer would not do.  The machine rounds
    the quotient before the ceiling is taken: for a size of [10 ^ 17] and a
    limit of 3 the count it returns is one tile short. *)
Theorem tile_counts_least (width height limit_w limit_h : Z) :
  (1 <= width)%Z -> (1 <= height)%Z -> (1 <= limit_w)%Z -> (1 <= limit_h)%Z ->
  (exists nx ny,
     tile_counts width height limit_w limit_h = Ok (nx, ny) /\
     ((nx - 1) * limit_w < width <= nx * limit_w)%Z /\
     ((ny - 1) * limit_h < height <= ny * limit_h)%Z) /\
  (exists nx ny,
     Binary64.tile_counts (10 ^ 17) 1 3 1 = Ok (nx, ny) /\
     tile_counts (10 ^ 17) 1 3 1 = Ok ((nx + 2)%Z, ny) /\
     (nx * 3 < 10 ^ 17)%Z).
Proof.
  intros Hw Hh Hlw Hlh. split.
  - assert (forall size limit, (1 <= size)%Z -> (1 <= limit)%Z ->
              exists n, (if (limit <? size)%Z then ceil_div size limit else Ok 1%Z) = Ok n /\
                        ((n - 1) * limit < size <= n * limit)%Z) as Haxis.
    { intros size limit Hs Hl. destruct (Z.ltb_spec limit size) as [Hlt | Hge].
      - exists (Qceiling (inject_Z size / inject_Z limit)). split; [by apply ceil_div_ok |].
        pose proof (Qle_ceiling (inject_Z size / inject_Z limit)) as Hhi.
        pose proof (Qceiling_lt (inject_Z size / inject_Z limit)) as Hlo.
        set (n := Qceiling _) in *. clearbody n.
        assert (inject_Z size == inject_Z size / inject_Z limit * inject_Z limit) as Es
          by (field; by apply inject_Z_nonzero).
        assert (0 < inject_Z limit) as Hpos
          by (change 0 with (inject_Z 0); rewrite <- Zlt_Qlt; lia).
        split.
        + rewrite Zlt_Qlt, inject_Z_mult, Es.
          apply Qmult_lt_compat_r; [done | exact Hlo].
        + rewrite Zle_Qle, inject_Z_mult, Es.
          apply Qmult_le_compat_r; [exact Hhi | lra].
      - exists 1%Z. split; [done | lia]. }
    destruct (Haxis width limit_w Hw Hlw) as (nx & Ex & Hx).
    destruct (Haxis height limit_h Hh Hlh) as (ny & Ey & Hy).
    exists nx, ny. unfold tile_counts. rewrite Ex, Ey. done.
  - exists 33333333333333332%Z, 1%Z.
    split; [vm_compute; reflexivity |]. split; [vm_compute; reflexivity | lia].
Qed.

Lemma tile_counts_least_witness :
  exists nx ny, tile_counts 12001 5000 5000 5000 = Ok (nx, ny) /\
    ((nx - 1) * 5000 < 12001 <= nx * 5000)%Z.
Proof.
  destruct (tile_counts_least 12001 5000 5000 5000) as [(nx & ny & E & Hx & _) _];
    [lia | lia | lia | lia |].
  exists nx, ny. split; [exact E | exact Hx].
Defined.

(** X2: in binary64 [tile_counts] raises [ZeroDivisionError] when the limit
    on the width is 0 and the width is positive, and when the width fits and
    the limit on the height is 0 and the height positive; it raises it in no
    other case than a limit of 0 with a positive size on that axis.  An axis
    whose size is at most its limit gets one tile and is not divided, so that
    a limit of 0 with a size of 0 or less is not an error. *)
Theorem tile_counts_error (width height limit_w limit_h : Z) :
  let run := Binary64.tile_counts width height limit_w limit_h in
  ((limit_w = 0 /\ 0 < width)%Z -> run = Raise ZeroDivisionError) /\
  ((width <= limit_w)%Z -> (limit_h = 0 /\ 0 < height)%Z -> run = Raise ZeroDivisionError) /\
  (run = Raise ZeroDivisionError ->
   (limit_w = 0 /\ 0 < width)%Z \/ (limit_h = 0 /\ 0 < height)%Z) /\
  (forall nx ny, run = Ok (nx, ny) ->
     ((width <= limit_w)%Z -> nx = 1%Z) /\ ((height <= limit_h)%Z -> ny = 1%Z)) /\
  ((width <= limit_w)%Z -> (height <= limit_h)%Z -> run = Ok (1%Z, 1%Z)).
Proof.
  intros run. subst run.
  assert (forall size limit,
            let axis := if (limit <? size)%Z then Binary64.ceil_div size limit else Ok 1%Z in
            ((limit = 0 /\ 0 < size)%Z -> axis = Raise ZeroDivisionError) /\
            (axis = Raise ZeroDivisionError -> (limit = 0 /\ 0 < size)%Z) /\
            ((size <= limit)%Z -> axis = Ok 1%Z)) as Haxis.
  { intros size limit axis. subst axis.
    destruct (Z.ltb_spec limit size) as [Hlt | Hge].
    - split; [| split; [| lia]].
      + intros [-> _]. reflexivity.
      + unfold Binary64.ceil_div, Binary64.int_truediv.
        destruct (Z.eqb_spec limit 0) as [-> | Hnz]; [intros _; lia |].
        destruct (SFdiv _ _ _ _) as [s | s | | s m e]; simpl; try done;
          unfold Binary64.math_ceil, Binary64.to_int;
          by destruct (Prim2SF _).
    - split; [lia |]. split; [done | done]. }
  unfold Binary64.tile_counts.
  destruct (Haxis width limit_w) as (Hx1 & Hx2 & Hx3).
  destruct (Haxis height limit_h) as (Hy1 & Hy2 & Hy3).
  cbv zeta in Hx1, Hx2, Hx3, Hy1, Hy2, Hy3.
  split; [intros H; by rewrite (Hx1 H) |].
  split; [intros Hfit H; by rewrite (Hx3 Hfit), (Hy1 H) |].
  split.
  { destruct (if (limit_w <? width)%Z then _ else _) as [nx | e] eqn:Ex; simpl.
    - destruct (if (limit_h <? height)%Z then _ else _) as [ny | e] eqn:Ey; simpl; [done |].
      intros [= ->]. right. by apply Hy2.
    - intros [= ->]. left. by apply Hx2. }
  split; [apply binary64_counts_fit |].
  intros Hw Hh. by rewrite (Hx3 Hw), (Hy3 Hh).
Qed.

(** ** Subdivision with unusable counts *)



(** ** The pixel grid on all inputs *)

Lemma py_max_tiny_mono (a b : Q) : a <= b -> py_max tiny a <= py_max tiny b.
Proof.
  intros Hab. destruct (Qlt_le_dec a tiny) as [Ha | Ha].
  - rewrite (py_max_lt _ _ Ha). unfold py_max.
    destruct (Qltb tiny b) eqn:E; [apply Qltb_true in E |]; lra.
  - rewrite (py_max_ge _ _ Ha), (py_max_ge tiny b) by lra. done.
Qed.

Lemma py_round_mono (x y : Q) : x <= y -> (py_round x <= py_round y)%Z.
Proof.
  intros Hxy. destruct (Z.le_gt_cases (py_round x) (py_round y)) as [| Hgt]; [done |].
  exfalso.
  destruct (py_round_near x) as [Hx _]. destruct (py_round_near y) as [_ Hy].
  assert (inject_Z (py_round y) + 1 <= inject_Z (py_round x)) as Hq.
  { rewrite <- inject_Z_succ, <- Zle_Qle. lia. }
  assert (x == y) as E.
  { generalize dependent (inject_Z (py_round x)).
    generalize dependent (inject_Z (py_round y)). intros; lra. }
  apply py_round_proper in E. lia.
Qed.

(** X4: in binary64 the grid computation raises [ZeroDivisionError] exactly
    when the pixel size of the width is zero, or the quotient of the width is
    finite and the pixel size of the height is zero; every other error is the
    [OverflowError] or the [ValueError] of rounding a quotient that is
    infinite or a NaN; and whenever it returns, whatever the order of the
    corners and the sign of the pixel sizes, both pixel sizes are non-zero,
    both quotients are finite and both numbers are at least 1. *)
Theorem compute_size_total (x1 y1 x2 y2 pix_x pix_y : float) :
  let qw := (Binary64.py_max Binary64.tiny (x2 - x1) / pix_x)%float in
  let qh := (Binary64.py_max Binary64.tiny (y2 - y1) / pix_y)%float in
  let run := Binary64.compute_size_from_bbox_and_pixels (x1, y1, x2, y2) pix_x pix_y in
  (run = Raise ZeroDivisionError <->
   PrimFloat.eqb pix_x 0 = true \/
   (Binary64.finite qw = true /\ PrimFloat.eqb pix_y 0 = true)) /\
  (forall e, run = Raise e ->
     e = ZeroDivisionError \/ e = OverflowError \/
     e = ValueError "cannot convert float NaN to integer") /\
  (forall width height, run = Ok (width, height) ->
     PrimFloat.eqb pix_x 0 = false /\ PrimFloat.eqb pix_y 0 = false /\
     Binary64.finite qw = true /\ Binary64.finite qh = true /\
     (1 <= width)%Z /\ (1 <= height)%Z).
Proof.
  intros qw qh run.
  assert (run = if PrimFloat.eqb pix_x 0 then Raise ZeroDivisionError
                else rw ← Binary64.to_int py_round qw;
                     if PrimFloat.eqb pix_y 0 then Raise ZeroDivisionError
                     else rh ← Binary64.to_int py_round qh;
                          Ok (Z.max 1 rw, Z.max 1 rh)) as Hrun.
  { subst run. unfold Binary64.compute_size_from_bbox_and_pixels, Binary64.py_div.
    fold qw qh. unfold Binary64.round_int.
    destruct (PrimFloat.eqb pix_x 0); [done |]. simpl.
    destruct (Binary64.to_int py_round qw); [| done]. simpl.
    by destruct (PrimFloat.eqb pix_y 0). }
  clearbody run.
  destruct (PrimFloat.eqb pix_x 0) eqn:Ex.
  { subst run. split; [split; [by left | done] |].
    split; [intros e [= <-]; by left | done]. }
  destruct (Binary64.finite qw) eqn:Hw.
  - rewrite (binary64_to_int_finite _ _ Hw) in Hrun. simpl in Hrun.
    destruct (PrimFloat.eqb pix_y 0) eqn:Ey.
    { subst run. split; [split; [by right | done] |].
      split; [intros e [= <-]; by left | done]. }
    destruct (Binary64.finite qh) eqn:Hh.
    + rewrite (binary64_to_int_finite _ _ Hh) in Hrun. simpl in Hrun. subst run.
      split; [split; [done | intros [| [_ ?]]; done] |]. split; [done |].
      intros width height [= <- <-]. repeat split; lia.
    + destruct (binary64_to_int_error py_round qh Hh) as [E | E];
        rewrite E in Hrun; simpl in Hrun; subst run;
        (split; [split; [done | intros [| [_ ?]]; done] |]);
        (split; [intros e [= <-]; auto | done]).
  - destruct (binary64_to_int_error py_round qw Hw) as [E | E];
      rewrite E in Hrun; simpl in Hrun; subst run;
      (split; [split; [done | intros [| [? _]]; done] |]);
      (split; [intros e [= <-]; auto | done]).
Qed.

Lemma Qhalf (p : Q) : p / 2 == p * (1 # 2).
Proof. field. Qed.

Lemma near_scaled (n q p : Q) :
  0 < p -> n - (1 # 2) <= q -> q <= n + (1 # 2) ->
  - (p / 2) <= n * p - q * p /\ n * p - q * p <= p / 2.
Proof. intros Hp Hlo Hhi. rewrite !Qhalf. split; nra. Qed.

Lemma axis_pixels_near (extent pix : Q) :
  0 < pix -> tiny <= extent -> pix <= 2 * extent ->
  let n := inject_Z (Z.max 1 (py_round (py_max tiny extent / pix))) in
  - (pix / 2) <= n * pix - extent /\ n * pix - extent <= pix / 2.
Proof.
  intros Hp Ht Hhalf n.
  assert (py_round (py_max tiny extent / pix) = py_round (extent / pix)) as E.
  { apply py_round_proper. by rewrite py_max_ge. }
  subst n. rewrite E.
  assert (extent == extent / pix * pix) as Eq by (field; lra).
  assert ((1 # 2) <= extent / pix) as Hq.
  { generalize dependent (extent / pix). intros; nra. }
  destruct (py_round_near (extent / pix)) as [Hlo Hhi].
  assert (0 <= py_round (extent / pix))%Z as H0.
  { apply py_round_ge. change (inject_Z 0) with 0. lra. }
  assert (inject_Z (Z.max 1 (py_round (extent / pix))) - (1 # 2) <= extent / pix /\
          extent / pix <= inject_Z (Z.max 1 (py_round (extent / pix))) + (1 # 2)) as [HA HB].
  { destruct (Z.le_gt_cases 1 (py_round (extent / pix))) as [H1 | H1].
    - rewrite Z.max_r by done. done.
    - assert (py_round (extent / pix) = 0%Z) as Er by lia.
      rewrite Er in *. change (inject_Z (Z.max 1 0)) with 1.
      change (inject_Z 0) with 0 in Hhi. split; lra. }
  destruct (near_scaled _ _ pix Hp HA HB) as [A B].
  rewrite <- Eq in A, B. done.
Qed.

(** X5: for positive pixel sizes and a rectangle that is at least [1e-9] and
    at least half a pixel long on each axis, the footprint of the grid
    (pixel count times pixel size) differs from the extent of the rectangle
    by at most half a pixel on each axis. *)
Theorem pixel_grid_within_half_pixel (x1 y1 x2 y2 pix_x pix_y : Q) :
  0 < pix_x -> 0 < pix_y ->
  tiny <= x2 - x1 -> tiny <= y2 - y1 ->
  pix_x <= 2 * (x2 - x1) -> pix_y <= 2 * (y2 - y1) ->
  exists width height,
    compute_size_from_bbox_and_pixels (x1, y1, x2, y2) pix_x pix_y = Ok (width, height) /\
    - (pix_x / 2) <= inject_Z width * pix_x - (x2 - x1) <= pix_x / 2 /\
    - (pix_y / 2) <= inject_Z height * pix_y - (y2 - y1) <= pix_y / 2.
Proof.
  intros Hpx Hpy Htx Hty Hhx Hhy. eexists _, _.
  split; [apply compute_size_eq; lra |].
  split; by apply axis_pixels_near.
Qed.

Lemma pixel_grid_within_half_pixel_witness :
  exists width height,
    compute_size_from_bbox_and_pixels (0, 0, 10, 7 # 2) (1 # 3) (1 # 3) = Ok (width, height) /\
    - ((1 # 3) / 2) <= inject_Z width * (1 # 3) - (10 - 0) <= (1 # 3) / 2.
Proof.
  destruct (pixel_grid_within_half_pixel 0 0 10 (7 # 2) (1 # 3) (1 # 3))
    as (w & h & E & Hw & _); try (unfold tiny, Qle; simpl; lia); try reflexivity.
  exists w, h. split; [exact E | exact Hw].
Defined.

(** X6: with exact coordinates and positive pixel sizes, a rectangle that is
    at least as wide and as high as another never gets fewer pixels on either
    axis. *)
Theorem pixel_grid_monotone (x1 y1 x2 y2 x1' y1' x2' y2' pix_x pix_y : Q) :
  0 < pix_x -> 0 < pix_y ->
  x2 - x1 <= x2' - x1' -> y2 - y1 <= y2' - y1' ->
  exists width height width' height',
    compute_size_from_bbox_and_pixels (x1, y1, x2, y2) pix_x pix_y = Ok (width, height) /\
    compute_size_from_bbox_and_pixels (x1', y1', x2', y2') pix_x pix_y = Ok (width', height') /\
    (width <= width')%Z /\ (height <= height')%Z.
Proof.
  intros Hpx Hpy Hw Hh.
  assert (forall a b p, 0 < p -> a <= b ->
            (Z.max 1 (py_round (py_max tiny a / p)) <=
             Z.max 1 (py_round (py_max tiny b / p)))%Z) as Hmono.
  { intros a b p Hp Hab. apply Z.max_le_compat_l, py_round_mono.
    assert (py_max tiny a <= py_max tiny b) as Hm by by apply py_max_tiny_mono.
    unfold Qdiv. apply Qmult_le_compat_r; [done |].
    apply Qlt_le_weak, Qinv_lt_0_compat. done. }
  eexists _, _, _, _.
  split; [apply compute_size_eq; lra |].
  split; [apply compute_size_eq; lra |].
  split; by apply Hmono.
Qed.

Lemma pixel_grid_monotone_witness :
  exists width height width' height',
    compute_size_from_bbox_and_pixels (0, 0, 10, 5) (1 # 3) (1 # 3) = Ok (width, height) /\
    compute_size_from_bbox_and_pixels (2, 2, 13, 8) (1 # 3) (1 # 3) = Ok (width', height') /\
    (width <= width')%Z.
Proof.
  destruct (pixel_grid_monotone 0 0 10 5 2 2 13 8 (1 # 3) (1 # 3))
    as (w & h & w' & h' & E & E' & Hw & _);
    try reflexivity; try (unfold Qle; simpl; lia).
  exists w, h, w', h'. split; [exact E |]. split; [exact E' | exact Hw].
Defined.

(** X7: every tile of a subdivision is given the same pixel grid, the grid of
    a rectangle [width / nx] wide and [height / ny] high (coordinates being
    exact, all tiles have that size). *)
Theorem tiles_share_one_grid (x1 y1 x2 y2 pix_x pix_y : Q) (nx ny : Z) :
  (1 <= nx)%Z -> (1 <= ny)%Z -> ~ pix_x == 0 -> ~ pix_y == 0 ->
  exists tiles tw th,
    subdivide_bbox (x1, y1, x2, y2) nx ny = Ok tiles /\
    compute_size_from_bbox_and_pixels
      (0, 0, (x2 - x1) / inject_Z nx, (y2 - y1) / inject_Z ny) pix_x pix_y = Ok (tw, th) /\
    forall t, t ∈ tiles -> compute_size_from_bbox_and_pixels t pix_x pix_y = Ok (tw, th).
Proof.
  intros Hnx Hny Hpx Hpy. eexists _, _, _.
  split; [by apply subdivide_bbox_grid |].
  split; [by apply compute_size_eq |].
  intros t Ht. apply elem_of_grid in Ht as (ix & iy & _ & _ & ->); [| done | done].
  unfold tile_at. rewrite compute_size_eq by done.
  destruct (tile_size x1 y1 x2 y2 nx ny ix iy) as [Ew Eh].
  unfold bbox_width, bbox_height, tile_at in Ew, Eh.
  f_equal. f_equal; f_equal; apply py_round_proper.
  - rewrite Ew. assert ((x2 - x1) / inject_Z nx - 0 == (x2 - x1) / inject_Z nx) as -> by ring.
    reflexivity.
  - rewrite Eh. assert ((y2 - y1) / inject_Z ny - 0 == (y2 - y1) / inject_Z ny) as -> by ring.
    reflexivity.
Qed.

Lemma tiles_share_one_grid_witness :
  exists tiles tw th,
    subdivide_bbox (0, 0, 4000, 1000) 2 3 = Ok tiles /\
    forall t, t ∈ tiles -> compute_size_from_bbox_and_pixels t (1 # 3) (1 # 3) = Ok (tw, th).
Proof.
  destruct (tiles_share_one_grid 0 0 4000 1000 (1 # 3) (1 # 3) 2 3)
    as (tiles & tw & th & E & _ & H); [lia | lia | discriminate | discriminate |].
  exists tiles, tw, th. split; [exact E | exact H].
Defined.

(** ** Unit conversion *)

(** X8: [meters_to_service_units] raises exactly when pyproj cannot build
    the transformer of line 210, which stands before the [try], and then with
    the error of pyproj; otherwise it returns the distance divided by the
    number of meters per unit that the reference system reports when that
    number is positive, and divided by 0.3048 when the reference system
    reports nothing, zero or a negative number. *)
Theorem meters_to_service_units_factor (meters : Q) (transformer : result unit)
    (to_meter : option Q) :
  (forall e, transformer = Raise e ->
     meters_to_service_units meters transformer to_meter = Raise e) /\
  (transformer = Ok tt ->
   (forall m, to_meter = Some m -> 0 < m ->
      meters_to_service_units meters transformer to_meter = Ok (meters / m)) /\
   ((forall m, to_meter = Some m -> m <= 0) ->
      meters_to_service_units meters transformer to_meter = Ok (meters / (3048 # 10000)))).
Proof.
  split; [by intros e -> |]. intros ->.
  unfold meters_to_service_units. simpl.
  assert (py_div meters (3048 # 10000) = Ok (meters / (3048 # 10000))) as Efeet
    by (apply py_div_ok; discriminate).
  destruct to_meter as [m |].
  - destruct (Qeq_bool m 0) eqn:E0; simpl.
    + apply Qeq_bool_iff in E0. split; [intros ? [= <-] ?; lra | done].
    + apply Qeq_bool_neq in E0. destruct (Qltb 0 m) eqn:Epos.
      * apply Qltb_true in Epos. rewrite py_div_ok by done.
        split; [by intros ? [= <-] _ |].
        intros Hle. specialize (Hle m eq_refl). lra.
      * apply Qltb_false in Epos. split; [intros ? [= <-] ?; lra | done].
  - split; [done | done].
Qed.

(** * Further properties of the workflows *)

(** ** Projection of the corners *)

Lemma Qmin_max_bounds (a b : Q) :
  Qmin a b <= Qmax a b /\ Qmin a b <= a /\ Qmin a b <= b /\ a <= Qmax a b /\ b <= Qmax a b /\
  (Qmin a b == a \/ Qmin a b == b) /\ (Qmax a b == a \/ Qmax a b == b).
Proof.
  pose proof (Q.max_spec a b). pose proof (Q.min_spec a b).
  generalize dependent (Qmax a b). generalize dependent (Qmin a b).
  intros. split_cases; repeat split; try lra; (left; lra) || (right; lra).
Qed.

(** X9: when both corners project, [transform_bbox_wgs84_to_service] returns
    a rectangle with [minx <= maxx] and [miny <= maxy] whose bounds are
    coordinates of the projected corners and which contains both, whichever
    way the projection orders them; it projects the first corner, then the
    second, and nothing else. *)
Theorem transform_bbox_normalized (w : world) (t : trace) (crs : Z)
    (lon1 lat1 lon2 lat2 xa ya xb yb : Q) :
  project w t crs lon1 lat1 = Ok (xa, ya) ->
  project w (t ++ [EvTransform crs lon1 lat1]) crs lon2 lat2 = Ok (xb, yb) ->
  exists minx miny maxx maxy,
    transform_bbox_wgs84_to_service (lon1, lat1, lon2, lat2) crs w t =
      (Ok (minx, miny, maxx, maxy),
       t ++ [EvTransform crs lon1 lat1; EvTransform crs lon2 lat2]) /\
    minx <= maxx /\ miny <= maxy /\
    in_rect (minx, miny, maxx, maxy) xa ya /\ in_rect (minx, miny, maxx, maxy) xb yb /\
    (minx == xa \/ minx == xb) /\ (maxx == xa \/ maxx == xb) /\
    (miny == ya \/ miny == yb) /\ (maxy == ya \/ maxy == yb).
Proof.
  intros H1 H2. eexists _, _, _, _. split.
  - unfold transform_bbox_wgs84_to_service, transform_point, call, mbind, io_bind, mret, io_ret.
    rewrite H1, H2, <- app_assoc. reflexivity.
  - unfold in_rect.
    destruct (Qmin_max_bounds xa xb) as (? & ? & ? & ? & ? & ? & ?).
    destruct (Qmin_max_bounds ya yb) as (? & ? & ? & ? & ? & ? & ?).
    done.
Qed.

Lemma transform_bbox_normalized_witness :
  exists minx miny maxx maxy,
    transform_bbox_wgs84_to_service (20, 15, 10, 10) 2868
      (sample_world sample_info (Ok []) (Ok tt) (Ok tt)) [] =
      (Ok (minx, miny, maxx, maxy), [EvTransform 2868 20 15; EvTransform 2868 10 10]) /\
    minx <= maxx /\ miny <= maxy.
Proof.
  destruct (transform_bbox_normalized (sample_world sample_info (Ok []) (Ok tt) (Ok tt))
              [] 2868 20 15 10 10 20 15 10 10)
    as (a & b & c & d & E & Hx & Hy & _); [reflexivity | reflexivity |].
  exists a, b, c, d. split; [exact E |]. split; [exact Hx | exact Hy].
Defined.

(** ** More on clipping *)

(** X10: when the declared extent is an object that lacks one of [xmin],
    [ymin], [xmax], [ymax], clipping raises [KeyError] for the first one that
    is missing in that order. *)
Theorem clip_missing_key (w : world) (t : trace) (target : string) (b : bbox)
    (info : json) (d : list (string * json)) (found : list string) (key : string)
    (rest : list string) :
  get_json w t target pjson = Ok info ->
  dict_get info "extent" = Ok (JDict d) -> d <> [] ->
  ["xmin"; "ymin"; "xmax"; "ymax"] = found ++ key :: rest ->
  Forall (fun k => is_Some (assoc k d)) found ->
  assoc key d = None ->
  clip_bbox_to_service_extent b target w t = (Raise (KeyError key), t ++ [EvGet target pjson]).
Proof.
  intros Hget Hext Hne Hkeys Hfound Hmiss.
  unfold clip_bbox_to_service_extent, _get_json, call, lift, mbind, io_bind, mret, io_ret.
  rewrite Hget, Hext.
  assert (truthy (JDict d) = true) as -> by by destruct d.
  cbn [negb subscript].
  destruct found as [| k1 [| k2 [| k3 [| k4 more]]]]; simplify_eq/=.
  - by rewrite Hmiss.
  - apply Forall_cons in Hfound as [[v1 ->] _]. by rewrite Hmiss.
  - apply Forall_cons in Hfound as [[v1 ->] Hfound].
    apply Forall_cons in Hfound as [[v2 ->] _]. by rewrite Hmiss.
  - apply Forall_cons in Hfound as [[v1 ->] Hfound].
    apply Forall_cons in Hfound as [[v2 ->] Hfound].
    apply Forall_cons in Hfound as [[v3 ->] _]. by rewrite Hmiss.
  - by destruct more.
Qed.

Lemma clip_missing_key_witness :
  clip_bbox_to_service_extent (10, 10, 20, 15) "svc"
    (sample_world (JDict [("extent", JDict [("xmin", JNum 0); ("ymin", JNum 0)])])
       (Ok []) (Ok tt) (Ok tt)) [] =
  (Raise (KeyError "xmax"), [EvGet "svc" pjson]).
Proof.
  apply (clip_missing_key _ [] "svc" (10, 10, 20, 15)
           (JDict [("extent", JDict [("xmin", JNum 0); ("ymin", JNum 0)])])
           [("xmin", JNum 0); ("ymin", JNum 0)] ["xmin"; "ymin"] "xmax" ["ymax"]);
    try reflexivity; try discriminate.
  repeat constructor; by eexists.
Defined.

Lemma Qmax_ge (a b : Q) : b <= a -> Qmax a b = a.
Proof.
  intros H. unfold Qmax, GenericMinMax.gmax.
  destruct (a ?= b) eqn:E; [done | | done]. apply Qlt_alt in E. lra.
Qed.

Lemma Qmin_le (a b : Q) : a <= b -> Qmin a b = a.
Proof.
  intros H. unfold Qmin, GenericMinMax.gmin.
  destruct (a ?= b) eqn:E; [done | done |]. apply Qgt_alt in E. lra.
Qed.

(** X11: a rectangle that lies within the declared extent is returned by the
    clip exactly as it was given. *)
Theorem clip_inside_extent (w : world) (t : trace) (target : string) (x1 y1 x2 y2 : Q)
    (info ext : json) (xmin ymin xmax ymax : Q) :
  x1 < x2 -> y1 < y2 ->
  xmin <= x1 -> x2 <= xmax -> ymin <= y1 -> y2 <= ymax ->
  get_json w t target pjson = Ok info ->
  dict_get info "extent" = Ok ext -> truthy ext = true ->
  subscript ext "xmin" = Ok (JNum xmin) -> subscript ext "ymin" = Ok (JNum ymin) ->
  subscript ext "xmax" = Ok (JNum xmax) -> subscript ext "ymax" = Ok (JNum ymax) ->
  clip_bbox_to_service_extent (x1, y1, x2, y2) target w t =
  (Ok (x1, y1, x2, y2), t ++ [EvGet target pjson]).
Proof.
  intros Hx Hy Hl Hr Hb Ht Hget Hext Htrue Hxmin Hymin Hxmax Hymax.
  rewrite (clip_run _ _ _ _ _ _ _ info ext xmin ymin xmax ymax) by done.
  rewrite !box_ordered by lra. unfold shapely.intersection.
  rewrite (Qmax_ge x1 xmin), (Qmax_ge y1 ymin), (Qmin_le x2 xmax), (Qmin_le y2 ymax) by done.
  assert (Qltb x2 x1 = false) as -> by (apply Qltb_false; lra).
  assert (Qltb y2 y1 = false) as -> by (apply Qltb_false; lra).
  reflexivity.
Qed.

Lemma clip_inside_extent_witness :
  clip_bbox_to_service_extent (10, 10, 20, 15) "svc"
    (sample_world sample_info (Ok []) (Ok tt) (Ok tt)) [] =
  (Ok (10, 10, 20, 15), [EvGet "svc" pjson]).
Proof.
  apply (clip_inside_extent (sample_world sample_info (Ok []) (Ok tt) (Ok tt))
           [] "svc" 10 10 20 15 sample_info sample_extent 0 0 100 50);
    try reflexivity; try discriminate.
Defined.

(** X12: whatever the metadata request answers, clipping sends that one
    request and calls nothing else; when the request fails, clipping fails
    with the same error. *)
Theorem clip_one_request (w : world) (t : trace) (target : string) (b : bbox) :
  (clip_bbox_to_service_extent b target w t).2 = t ++ [EvGet target pjson] /\
  forall e, get_json w t target pjson = Raise e ->
            (clip_bbox_to_service_extent b target w t).1 = Raise e.
Proof.
  destruct b as [[[x1 y1] x2] y2].
  unfold clip_bbox_to_service_extent, _get_json, call, lift, mbind, io_bind, mret, io_ret.
  split.
  - repeat (case_match; simplify_eq/=; try done).
  - intros e ->. done.
Qed.

(** ** The export request and its file *)

(** X13: the parameters of an export are [f], [bbox], [bboxSR], [imageSR],
    [size], [format] and [interpolation], plus [token] exactly when a
    non-empty token was given; the payload is asked for as an image in TIFF,
    the size is the width and the height separated by a comma, and the box is
    its four coordinates in the order min x, min y, max x, max y. *)
Theorem export_params_keys (w : world) (service : ServiceInfo) (x1 y1 x2 y2 : Q)
    (size : Z * Z) (token : option string) :
  let params := export_params w service (x1, y1, x2, y2) size token in
  let sent := match token with
              | Some tok => if String.eqb tok "" then None else Some tok
              | None => None
              end in
  dom params =
    ({["f"; "bbox"; "bboxSR"; "imageSR"; "size"; "format"; "interpolation"]} : gset string)
    ∪ (match sent with Some _ => {["token"]} | None => ∅ end) /\
  params !! "token" = sent /\
  params !! "f" = Some "image" /\ params !! "format" = Some "tiff" /\
  params !! "size" = Some (str_int size.1 +:+ "," +:+ str_int size.2) /\
  params !! "bbox" =
    Some (str_float w x1 +:+ "," +:+ str_float w y1 +:+ "," +:+
          str_float w x2 +:+ "," +:+ str_float w y2).
Proof.
  unfold export_params.
  destruct token as [tok |]; [destruct (String.eqb tok "") |];
    (split; [rewrite ?dom_insert_L, dom_empty_L; set_solver |]);
    repeat split; by simplify_map_eq.
Qed.

Lemma export_image_run (service : ServiceInfo) (b : bbox) (size : Z * Z)
    (path : string) (token : option string) (w : world) (t : trace) :
  let target := url service +:+ "/exportImage" in
  let params := export_params w service b size token in
  match get_content w t target params with
  | Raise e =>
      export_image service b size path token w t = (Raise e, t ++ [EvGet target params])
  | Ok content =>
      let t' := t ++ [EvGet target params] in
      export_image service b size path token w t =
      (match write_bytes w t' path content with Ok _ => Ok path | Raise e => Raise e end,
       t ++ [EvGet target params; EvWriteBytes path content])
  end.
Proof.
  intros target params.
  unfold export_image, ask, call, mbind, io_bind, mret, io_ret. cbn beta iota.
  fold target params.
  destruct (get_content w t target params) as [content | e]; [| done].
  cbn zeta. rewrite <- app_assoc.
  by destruct (write_bytes w _ path content) as [[] | e].
Qed.

(** X14: [export_image] writes nothing when the request fails, and otherwise
    writes the bytes it received, unchanged, to the path it was given, which
    it returns if the write succeeds; it never calls anything else. *)
Theorem export_image_outcome (service : ServiceInfo) (b : bbox) (size : Z * Z)
    (path : string) (token : option string) (w : world) (t : trace) :
  let target := url service +:+ "/exportImage" in
  let params := export_params w service b size token in
  (forall e, get_content w t target params = Raise e ->
     export_image service b size path token w t = (Raise e, t ++ [EvGet target params])) /\
  (forall content, get_content w t target params = Ok content ->
     (export_image service b size path token w t).2 =
       t ++ [EvGet target params; EvWriteBytes path content] /\
     (write_bytes w (t ++ [EvGet target params]) path content = Ok tt ->
        (export_image service b size path token w t).1 = Ok path) /\
     (forall e, write_bytes w (t ++ [EvGet target params]) path content = Raise e ->
        (export_image service b size path token w t).1 = Raise e)).
Proof.
  intros target params.
  pose proof (export_image_run service b size path token w t) as Hrun.
  cbv zeta in Hrun. fold target params in Hrun.
  split.
  - intros e He. by rewrite He in Hrun.
  - intros content Hc. rewrite Hc in Hrun. rewrite Hrun.
    split; [done |]. split; [by intros -> | by intros e ->].
Qed.

(** ** The mosaic *)


(** X15: the outcome of [mosaic_and_write_cog] for every answer of the
    encoder.  With a single part the output is encoded from that part, no VRT
    is built, and the result is the output path or the error of the encoder.
    Otherwise a VRT over all the parts, in order, is built next to the output;
    if that fails the error is raised and nothing else is called; else the
    output is encoded from the VRT; if that fails the error is raised and the
    VRT is left; else the removal of the VRT is asked for and the output path
    is returned, whatever the removal answers.  No part is written or
    removed.  The encoder is given the block size, the compression and
    [NUM_THREADS=ALL_CPUS]. *)
Theorem mosaic_outcome (parts : list string) (out : string) (blocksize : Z)
    (compress : string) (w : world) (t : trace) :
  let options := ["BLOCKSIZE=" +:+ str_int blocksize; "COMPRESS=" +:+ compress;
                  "NUM_THREADS=ALL_CPUS"] in
  let vrt := with_suffix w out ".vrt" in
  let run := mosaic_and_write_cog parts out blocksize compress w t in
  (forall part, parts = [part] ->
     run = (match translate w t out part options with
            | Ok _ => Ok out
            | Raise e => Raise e
            end, t ++ [EvTranslate out part options])) /\
  (length parts <> 1%nat ->
     match build_vrt w t vrt parts with
     | Raise e => run = (Raise e, t ++ [EvBuildVRT vrt parts])
     | Ok _ =>
         match translate w (t ++ [EvBuildVRT vrt parts]) out vrt options with
         | Raise e =>
             run = (Raise e, t ++ [EvBuildVRT vrt parts; EvTranslate out vrt options])
         | Ok _ =>
             run = (Ok out,
                    t ++ [EvBuildVRT vrt parts; EvTranslate out vrt options; EvRemove vrt])
         end
     end) /\
  exists added, run.2 = t ++ added /\ written added = [] /\ unlinked added = [].
Proof.
  intros options vrt run.
  assert (forall part, parts = [part] ->
            run = (match translate w t out part options with
                   | Ok _ => Ok out
                   | Raise e => Raise e
                   end, t ++ [EvTranslate out part options])) as Hone.
  { intros part ->. subst run.
    unfold mosaic_and_write_cog, gdal_translate, call, mbind, io_bind, mret, io_ret.
    change (creation_options blocksize compress) with options.
    by destruct (translate w t out part options). }
  assert (length parts <> 1%nat ->
          match build_vrt w t vrt parts with
          | Raise e => run = (Raise e, t ++ [EvBuildVRT vrt parts])
          | Ok _ =>
              match translate w (t ++ [EvBuildVRT vrt parts]) out vrt options with
              | Raise e =>
                  run = (Raise e, t ++ [EvBuildVRT vrt parts; EvTranslate out vrt options])
              | Ok _ =>
                  run = (Ok out,
                         t ++ [EvBuildVRT vrt parts; EvTranslate out vrt options;
                               EvRemove vrt])
              end
          end) as Hmany.
  { intros Hlen. subst run.
    assert (mosaic_and_write_cog parts out blocksize compress =
            (w ← ask;
             let vrt_path := with_suffix w out ".vrt" in
             _ ← call (EvBuildVRT vrt_path parts) (fun w t => build_vrt w t vrt_path parts);
             _ ← gdal_translate out vrt_path (creation_options blocksize compress);
             _ ← suppress (call (EvRemove vrt_path) (fun w t => os_remove w t vrt_path));
             mret out)) as ->.
    { destruct parts as [| p [| q l]]; done. }
    unfold gdal_translate, suppress, ask, call, mbind, io_bind, mret, io_ret.
    cbn beta iota zeta. fold vrt.
    change (creation_options blocksize compress) with options.
    destruct (build_vrt w t vrt parts) as [[] | e]; [| done].
    destruct (translate w _ out vrt _) as [[] | e]; cbn [fst snd];
      by rewrite <- !app_assoc. }
  split; [exact Hone |]. split; [exact Hmany |].
  destruct (decide (length parts = 1%nat)) as [Hlen | Hlen].
  - destruct parts as [| part [| ? ?]]; try done.
    rewrite (Hone part eq_refl). by eexists.
  - specialize (Hmany Hlen).
    destruct (build_vrt w t vrt parts) as [[] | e]; [| rewrite Hmany; by eexists].
    destruct (translate w _ out vrt _) as [[] | e]; rewrite Hmany; by eexists.
Qed.

(** ** One request per tile *)



Lemma bind_lift {A B} (r : result A) (k : A -> io B) (w : world) (t : trace) :
  (lift r ≫= k) w t =
  match r with
  | Ok a => k a w t
  | Raise e => (Raise e, t)
  end.
Proof. by destruct r. Qed.

(** *** A failed tile ends the export *)







Section Plan.

Variables (service : ServiceInfo) (pix_x pix_y : Q) (part_path : Z -> string)
          (token : option string).

Let target := url service +:+ "/exportImage".

Let fetch (it : Z * bbox) : io string :=
  let '(i, tile) := it in
  '(tw, th) ← lift (compute_size_from_bbox_and_pixels tile pix_x pix_y);
  export_image service tile (tw, th) (part_path i) token.






End Plan.





(** ** Choice of the pixel size *)

(** X18: an override is used for both axes as it is; without an override the
    size reported by the service is used on each axis, and one third of a
    unit where the service reports none or zero, so that the sizes chosen are
    never zero and the grid computation does not divide by zero on them. *)
Theorem pixel_sizes_choice (service : ServiceInfo) :
  (forall p, pixel_sizes (Some p) service = (p, p)) /\
  (let chosen := pixel_sizes None service in
   ~ chosen.1 == 0 /\ ~ chosen.2 == 0 /\
   (forall v, pixel_size_x service = Some v -> ~ v == 0 -> chosen.1 = v) /\
   (forall v, pixel_size_y service = Some v -> ~ v == 0 -> chosen.2 = v) /\
   (pixel_size_x service = None -> chosen.1 == 1 # 3) /\
   (pixel_size_y service = None -> chosen.2 == 1 # 3) /\
   forall b,
     compute_size_from_bbox_and_pixels b chosen.1 chosen.2 <> Raise ZeroDivisionError).
Proof.
  split; [done |].
  assert (forall s : option Q,
            let v := match s with
                     | Some v => if Qeq_bool v 0 then 1 / 3 else v
                     | None => 1 / 3
                     end in
            ~ v == 0 /\ (forall u, s = Some u -> ~ u == 0 -> v = u) /\
            (s = None -> v == 1 # 3)) as Hfb.
  { intros [v |]; simpl.
    - destruct (Qeq_bool v 0) eqn:E.
      + apply Qeq_bool_iff in E. split; [done |].
        split; [intros u [= <-] Hu; contradiction | done].
      + apply Qeq_bool_neq in E. split; [done |].
        split; [by intros u [= <-] _ | done].
    - split; [done |]. split; [done | intros _; reflexivity]. }
  unfold pixel_sizes. cbn [fst snd].
  destruct (Hfb (pixel_size_x service)) as (Hx & Hxs & Hxn).
  destruct (Hfb (pixel_size_y service)) as (Hy & Hys & Hyn).
  repeat split; try done.
  intros [[[x1 y1] x2] y2]. by rewrite compute_size_eq.
Qed.

(** ** Failures that stop a workflow *)

(** X19: when the projected area is a proper rectangle that has no point in
    common with the declared extent, [run_bbox_mode] raises the out-of-extent
    error after the two projections and the metadata request: no directory is
    made, no tile is requested, nothing is written or encoded. *)
Theorem bbox_mode_outside_extent (service : ServiceInfo) (args : bbox_args)
    (w : world) (t : trace) (lon1 lat1 lon2 lat2 xa ya xb yb : Q)
    (info ext : json) (xmin ymin xmax ymax : Q) :
  ba_bbox args = (lon1, lat1, lon2, lat2) ->
  let t1 := t ++ [EvTransform (wkid service) lon1 lat1] in
  let t2 := t ++ [EvTransform (wkid service) lon1 lat1;
                  EvTransform (wkid service) lon2 lat2] in
  project w t (wkid service) lon1 lat1 = Ok (xa, ya) ->
  project w t1 (wkid service) lon2 lat2 = Ok (xb, yb) ->
  xa < xb -> ya < yb -> xmin < xmax -> ymin < ymax ->
  get_json w t2 (url service) pjson = Ok info ->
  dict_get info "extent" = Ok ext -> truthy ext = true ->
  subscript ext "xmin" = Ok (JNum xmin) -> subscript ext "ymin" = Ok (JNum ymin) ->
  subscript ext "xmax" = Ok (JNum xmax) -> subscript ext "ymax" = Ok (JNum ymax) ->
  (forall px py, ~ (in_rect (xa, ya, xb, yb) px py /\
                    in_rect (xmin, ymin, xmax, ymax) px py)) ->
  run_bbox_mode service args w t =
  (Raise out_of_extent, t2 ++ [EvGet (url service) pjson]).
Proof.
  intros Hbox t1 t2 H1 H2 Hx Hy Hex Hey Hget Hext Htrue Hxmin Hymin Hxmax Hymax Hout.
  unfold run_bbox_mode. rewrite Hbox. destruct (pixel_sizes _ _) as [pix_x pix_y].
  rewrite bind_run.
  assert (transform_bbox_wgs84_to_service (lon1, lat1, lon2, lat2) (wkid service) w t =
          (Ok (xa, ya, xb, yb), t2)) as ->.
  { unfold transform_bbox_wgs84_to_service, transform_point, call, mbind, io_bind, mret, io_ret.
    fold t1. rewrite H1, H2. subst t1 t2. rewrite <- app_assoc.
    by rewrite (Qmin_lt _ _ Hx), (Qmin_lt _ _ Hy), (Qmax_lt _ _ Hx), (Qmax_lt _ _ Hy). }
  rewrite bind_run.
  rewrite (clip_run _ _ _ _ _ _ _ info ext xmin ymin xmax ymax) by done.
  pose proof (intersection_spec xa ya xb yb xmin ymin xmax ymax Hx Hy Hex Hey) as Hs.
  destruct (shapely.intersection _ _) as [| a b c d]; [done |].
  destruct Hs as (Hac & Hbd & _ & Hpts). exfalso.
  apply (Hout a b). apply Hpts. unfold in_rect. repeat split; lra.
Qed.

Lemma bbox_mode_outside_extent_witness :
  let args := {| ba_pixel_size := None; ba_bbox := (200, 10, 220, 15);
                 ba_out := "/data/aoi.tif"; ba_token := None; ba_blocksize := 512;
                 ba_compress := "DEFLATE"; ba_keep_parts := false |} in
  run_bbox_mode sample_service args (sample_world sample_info (Ok []) (Ok tt) (Ok tt)) [] =
  (Raise out_of_extent,
   [EvTransform 2868 200 10; EvTransform 2868 220 15; EvGet (url sample_service) pjson]).
Proof.
  intros args.
  apply (bbox_mode_outside_extent sample_service args
           (sample_world sample_info (Ok []) (Ok tt) (Ok tt)) []
           200 10 220 15 200 10 220 15 sample_info sample_extent 0 0 100 50);
    try reflexivity.
  intros px py [(H1 & _) (_ & H2 & _)].
  apply (Qle_not_lt _ _ (Qle_trans _ _ _ H1 H2)). reflexivity.
Defined.

Lemma for_each_app {A} (l1 l2 : list A) (body : A -> io unit) (w : world) (t : trace) :
  for_each (l1 ++ l2) body w t = (for_each l1 body ≫= fun _ => for_each l2 body) w t.
Proof.
  revert t. induction l1 as [| x l1 IH]; intros t.
  - done.
  - cbn [app for_each]. rewrite !bind_run.
    destruct (body x w t) as [[[] | e] t']; [| done].
    rewrite IH, bind_run. done.
Qed.

(** X20: in the CSV workflow the rows are exported in order and the first row
    that fails ends the run: the rows after it are never looked at, whatever
    they are. *)
Theorem csv_mode_stops_at_failure (service : ServiceInfo) (args : csv_args)
    (done_rows : list csv_row) (row : csv_row) (later : list csv_row)
    (w : world) (t : trace) (e : exn) :
  (run_csv_mode service args (done_rows ++ [row]) w t).1 = Raise e ->
  run_csv_mode service args (done_rows ++ row :: later) w t =
  run_csv_mode service args (done_rows ++ [row]) w t.
Proof.
  unfold run_csv_mode. destruct (pixel_sizes _ _) as [pix_x pix_y].
  rewrite !(bind_run ask). unfold ask at 1 2 3. cbn beta iota.
  rewrite !bind_lift.
  destruct (match ca_buffer_unit args with
            | Meters => _
            | Feet => _
            end) as [buf_dist | e']; [| done].
  rewrite !(bind_run (call _ _)).
  destruct (call _ _ w t) as [[[] | e'] t']; [| done].
  replace (done_rows ++ row :: later) with ((done_rows ++ [row]) ++ later)
    by (by rewrite <- app_assoc).
  rewrite (for_each_app (done_rows ++ [row]) later), bind_run.
  by destruct (for_each (done_rows ++ [row]) _ w t') as [[[] | e'] t''].
Qed.

Lemma csv_mode_stops_at_failure_witness :
  let args := {| ca_pixel_size := None; ca_buffer := 5; ca_buffer_unit := Feet;
                 ca_out_dir := "/data"; ca_token := None; ca_blocksize := 512;
                 ca_compress := "DEFLATE"; ca_keep_parts := false |} in
  let w := sample_world sample_info (Raise HTTPError) (Ok tt) (Ok tt) in
  let row := {| row_lon := 50; row_lat := 20; row_stem := "site_1" |} in
  let other := {| row_lon := 60; row_lat := 30; row_stem := "site_2" |} in
  run_csv_mode sample_service args ([] ++ row :: [other]) w [] =
  run_csv_mode sample_service args ([] ++ [row]) w [].
Proof.
  intros args w row other.
  apply (csv_mode_stops_at_failure sample_service args [] row [other] w [] HTTPError).
  vm_compute. reflexivity.
Defined.

(** * Properties of the service metadata *)

Ltac run_io :=
  unfold _get_json, attempt, call, lift, mbind, io_bind, result_bind, mret, io_ret in *.

(** X21: when the metadata is an object whose spatial reference is an object
    (or is absent), [fetch_service_info] gives up with its own error exactly
    when [latestWkid] is absent or falsy and [wkid] is absent or null; it has
    then sent the metadata request and nothing else. *)
Theorem fetch_without_wkid (c : conversions) (target : string) (w : world) (t : trace)
    (d s : list (string * json)) :
  get_json w t target pjson = Ok (JDict d) ->
  default (JDict []) (assoc "spatialReference" d) = JDict s ->
  let latest := default JNull (assoc "latestWkid" s) in
  let plain := default JNull (assoc "wkid" s) in
  ((fetch_service_info c target w t).1 = Ok None <->
   truthy latest = false /\ plain = JNull) /\
  (truthy latest = false -> plain = JNull ->
   fetch_service_info c target w t = (Ok None, t ++ [EvGet target pjson])).
Proof.
  intros Hget Hsr latest plain.
  assert (truthy latest = false -> plain = JNull ->
          fetch_service_info c target w t = (Ok None, t ++ [EvGet target pjson])) as Hnone.
  { intros Hl Hp. unfold fetch_service_info. run_io.
    rewrite Hget. cbn [dict_get_or]. rewrite Hsr. cbn [dict_get]. fold latest plain.
    rewrite Hl, Hp. reflexivity. }
  split; [| exact Hnone]. split.
  - intros Hres. unfold fetch_service_info in Hres. run_io.
    rewrite Hget in Hres. cbn [dict_get_or] in Hres. rewrite Hsr in Hres.
    cbn [dict_get] in Hres. fold latest plain in Hres.
    destruct (truthy latest) eqn:Hl.
    + exfalso. destruct latest; try done;
        cbn [is_none] in Hres; repeat (case_match; simplify_eq/=).
    + split; [done |]. destruct plain; try done;
        cbn [is_none] in Hres; repeat (case_match; simplify_eq/=).
  - intros [Hl Hp]. by rewrite Hnone.
Qed.

Lemma fetch_without_wkid_witness :
  fetch_service_info sample_conversions "svc"
    (sample_world (JDict [("spatialReference", JDict [("latestWkid", JNum 0)])])
       (Ok []) (Ok tt) (Ok tt)) [] =
  (Ok None, [EvGet "svc" pjson]).
Proof.
  apply (proj2 (fetch_without_wkid sample_conversions "svc"
                  (sample_world (JDict [("spatialReference", JDict [("latestWkid", JNum 0)])])
                     (Ok []) (Ok tt) (Ok tt)) []
                  [("spatialReference", JDict [("latestWkid", JNum 0)])]
                  [("latestWkid", JNum 0)] eq_refl eq_refl)); reflexivity.
Defined.

(** X22: when [fetch_service_info] returns a service from a metadata object,
    the service carries the address it was asked for; its identifier is
    [latestWkid] when that is truthy and [wkid] otherwise; and each size limit
    is the integer value of the declared one, and 10000 where the metadata
    declares none. *)
Theorem fetch_fields (c : conversions) (target : string) (w : world) (t : trace)
    (d s : list (string * json)) (service : ServiceInfo) :
  get_json w t target pjson = Ok (JDict d) ->
  default (JDict []) (assoc "spatialReference" d) = JDict s ->
  (fetch_service_info c target w t).1 = Ok (Some service) ->
  let latest := default JNull (assoc "latestWkid" s) in
  let plain := default JNull (assoc "wkid" s) in
  url service = target /\
  (truthy latest = true -> py_int c latest = Ok (wkid service)) /\
  (truthy latest = false -> py_int c plain = Ok (wkid service)) /\
  (forall v, assoc "maxImageWidth" d = Some v -> py_int c v = Ok (max_w service)) /\
  (forall v, assoc "maxImageHeight" d = Some v -> py_int c v = Ok (max_h service)) /\
  (assoc "maxImageWidth" d = None -> max_w service = 10000%Z) /\
  (assoc "maxImageHeight" d = None -> max_h service = 10000%Z).
Proof.
  intros Hget Hsr Hres latest plain.
  unfold fetch_service_info in Hres. run_io.
  rewrite Hget in Hres. cbn [dict_get_or] in Hres. rewrite Hsr in Hres.
  cbn [dict_get] in Hres. fold latest plain in Hres.
  assert (forall v (k : string), default (JNum 10000) (assoc k d) = v ->
            (forall u, assoc k d = Some u -> u = v) /\
            (assoc k d = None -> v = JNum 10000)) as Hdef.
  { intros v k <-. destruct (assoc k d); simpl; split; congruence. }
  destruct (Hdef _ "maxImageWidth" eq_refl) as [Hw1 Hw2].
  destruct (Hdef _ "maxImageHeight" eq_refl) as [Hh1 Hh2].
  destruct (py_int c (default (JNum 10000) (assoc "maxImageWidth" d))) as [mw | e] eqn:Emw;
    [| destruct (truthy latest); repeat (case_match; simplify_eq/=)].
  destruct (py_int c (default (JNum 10000) (assoc "maxImageHeight" d))) as [mh | e] eqn:Emh;
    [| destruct (truthy latest); repeat (case_match; simplify_eq/=)].
  assert (max_w service = mw /\ max_h service = mh /\ url service = target /\
          py_int c (if truthy latest then latest else plain) = Ok (wkid service))
    as (<- & <- & Hurl & Hid).
  { destruct (truthy latest); repeat (case_match; simplify_eq/=); done. }
  split; [done |].
  split; [intros Hl; by rewrite Hl in Hid |].
  split; [intros Hl; by rewrite Hl in Hid |].
  split; [intros v Hv; by rewrite (Hw1 v Hv) |].
  split; [intros v Hv; by rewrite (Hh1 v Hv) |].
  split.
  - intros Hn. rewrite (Hw2 Hn) in Emw. by injection Emw as <-.
  - intros Hn. rewrite (Hh2 Hn) in Emh. by injection Emh as <-.
Qed.

Lemma fetch_fields_witness :
  let info := [("spatialReference", JDict [("wkid", JNum 102100); ("latestWkid", JNum 3857)]);
               ("maxImageWidth", JNum 4100)] in
  let w := sample_world (JDict info) (Ok []) (Ok tt) (Ok tt) in
  exists service,
    (fetch_service_info sample_conversions "svc" w []).1 = Ok (Some service) /\
    py_int sample_conversions (JNum 3857) = Ok (wkid service) /\
    max_h service = 10000%Z.
Proof.
  intros info w.
  eexists. split; [vm_compute; reflexivity |].
  refine (let H := fetch_fields sample_conversions "svc" w [] info
                     [("wkid", JNum 102100); ("latestWkid", JNum 3857)] _
                     eq_refl eq_refl eq_refl in _).
  destruct H as (_ & Hl & _ & _ & _ & _ & Hh).
  split; [exact (Hl eq_refl) | exact (Hh eq_refl)].
Defined.

(** X23: a failure of the [keyProperties] request is not a failure of
    [fetch_service_info]: the outcome and the calls made are those of a
    service whose key properties are an empty object, and a service that is
    returned has no pixel size. *)
Theorem fetch_tolerates_key_properties (c : conversions) (target : string)
    (w w' : world) (t : trace) (info : json) (e : exn) :
  get_json w t target pjson = Ok info ->
  get_json w' t target pjson = Ok info ->
  get_json w (t ++ [EvGet target pjson]) (target +:+ "/keyProperties") pjson = Raise e ->
  get_json w' (t ++ [EvGet target pjson]) (target +:+ "/keyProperties") pjson
    = Ok (JDict []) ->
  fetch_service_info c target w t = fetch_service_info c target w' t /\
  forall service, (fetch_service_info c target w t).1 = Ok (Some service) ->
    pixel_size_x service = None /\ pixel_size_y service = None.
Proof.
  intros Hget Hget' Hkp Hkp'.
  unfold fetch_service_info. run_io. rewrite Hget, Hget'.
  destruct (dict_get_or info "spatialReference" (JDict [])) as [sr |]; [| done].
  destruct (dict_get sr "latestWkid") as [latest |]; [| done].
  destruct (truthy latest); [| destruct (dict_get sr "wkid") as [plain |]; [| done]];
    (match goal with |- context [is_none ?v] => destruct (is_none v) end; [done |]);
    cbn beta iota;
    (destruct (dict_get_or info "maxImageWidth" (JNum 10000)) as [v1 |]; [| done]);
    (destruct (py_int c v1) as [mw |]; [| done]);
    (destruct (dict_get_or info "maxImageHeight" (JNum 10000)) as [v2 |]; [| done]);
    (destruct (py_int c v2) as [mh |]; [| done]);
    rewrite Hkp, Hkp'; cbn [pixel_keys keys_x keys_y pixel_key assoc];
    (split; [done |]); intros service Hs;
    repeat (case_match; simplify_eq/=); done.
Qed.

Lemma fetch_tolerates_key_properties_witness :
  fetch_service_info sample_conversions "svc"
    (sample_world_kp (JDict [("spatialReference", JDict [("wkid", JNum 2868)])])
       (Raise HTTPError)) [] =
  fetch_service_info sample_conversions "svc"
    (sample_world_kp (JDict [("spatialReference", JDict [("wkid", JNum 2868)])])
       (Ok (JDict []))) [].
Proof.
  exact (proj1 (fetch_tolerates_key_properties sample_conversions "svc"
                  (sample_world_kp (JDict [("spatialReference", JDict [("wkid", JNum 2868)])])
                     (Raise HTTPError))
                  (sample_world_kp (JDict [("spatialReference", JDict [("wkid", JNum 2868)])])
                     (Ok (JDict []))) []
                  (JDict [("spatialReference", JDict [("wkid", JNum 2868)])]) HTTPError
                  eq_refl eq_refl eq_refl eq_refl)).
Defined.

Lemma pixel_keys_last (c : conversions) (k : list (string * json)) (px : option Q)
    (keys : list string) :
  pixel_keys c (JDict k) px keys =
  Ok (match last (omap (fun key => assoc key k ≫= py_float_of_str c) keys) with
      | Some q => Some q
      | None => px
      end).
Proof.
  revert px. induction keys as [| key keys IH]; intros px; [done |].
  cbn [pixel_keys pixel_key omap list_omap]. unfold mbind at 1, result_bind.
  destruct (assoc key k) as [v |]; cbn [mbind option_bind].
  - destruct (py_float_of_str c v) as [q |]; rewrite IH; [| done].
    rewrite last_cons. by destruct (last _).
  - by rewrite IH.
Qed.

(** X24: among the key names tried for a pixel size, the last one in the list
    that is present with a value that reads as a number wins, even when an
    earlier name is present too; in particular a readable [pixelSize] decides
    the size along x whatever [Pixel Size X] and the others say.  When no name
    qualifies the size stays unset. *)
Theorem pixel_size_last_key_wins (c : conversions) (k : list (string * json))
    (keys : list string) :
  pixel_keys c (JDict k) None keys =
    Ok (last (omap (fun key => assoc key k ≫= py_float_of_str c) keys)) /\
  (forall v q, assoc "pixelSize" k = Some v -> py_float_of_str c v = Some q ->
     pixel_keys c (JDict k) None keys_x = Ok (Some q)).
Proof.
  split.
  - rewrite pixel_keys_last. by destruct (last _).
  - intros v q Hv Hq. rewrite pixel_keys_last.
    change keys_x with (["Pixel Size X"; "PixelSizeX"; "pixelSizeX"; "pixelSizex"]
                          ++ ["pixelSize"]).
    rewrite omap_app.
    assert (omap (fun key => assoc key k ≫= py_float_of_str c) ["pixelSize"] = [q]) as ->.
    { cbn [omap list_omap]. rewrite Hv. cbn [mbind option_bind]. by rewrite Hq. }
    by rewrite last_snoc.
Qed.

(** X25: whatever the service answers, [fetch_service_info] sends the
    metadata request, then at most the [keyProperties] request, and calls
    nothing else; when the metadata request fails it fails with the same
    error and the second request is not sent. *)
Theorem fetch_requests (c : conversions) (target : string) (w : world) (t : trace) :
  let first := EvGet target pjson in
  let second := EvGet (target +:+ "/keyProperties") pjson in
  ((fetch_service_info c target w t).2 = t ++ [first] \/
   (fetch_service_info c target w t).2 = t ++ [first; second]) /\
  (forall e, get_json w t target pjson = Raise e ->
     fetch_service_info c target w t = (Raise e, t ++ [first])).
Proof.
  intros first second. split.
  - unfold fetch_service_info. run_io. subst first second.
    repeat (case_match; simplify_eq/=; rewrite <- ?app_assoc; auto).
  - intros e He. unfold fetch_service_info. run_io. by rewrite He.
Qed.

(** X26: the [keyProperties] answer is only guarded against a failed request:
    when the request succeeds with a document that is null, a boolean or a
    number, looking a key name up in it raises [TypeError] and
    [fetch_service_info] fails, although the metadata was complete. *)
Theorem fetch_key_properties_not_a_container (c : conversions) (target : string)
    (w : world) (t : trace) (d s : list (string * json)) (kp : json) (mw mh : Z) :
  get_json w t target pjson = Ok (JDict d) ->
  default (JDict []) (assoc "spatialReference" d) = JDict s ->
  is_none (if truthy (default JNull (assoc "latestWkid" s))
           then default JNull (assoc "latestWkid" s)
           else default JNull (assoc "wkid" s)) = false ->
  py_int c (default (JNum 10000) (assoc "maxImageWidth" d)) = Ok mw ->
  py_int c (default (JNum 10000) (assoc "maxImageHeight" d)) = Ok mh ->
  get_json w (t ++ [EvGet target pjson]) (target +:+ "/keyProperties") pjson = Ok kp ->
  kp = JNull \/ (exists b, kp = JBool b) \/ (exists q, kp = JNum q) ->
  fetch_service_info c target w t =
  (Raise TypeError,
   t ++ [EvGet target pjson; EvGet (target +:+ "/keyProperties") pjson]).
Proof.
  intros Hget Hsr Hid Hmw Hmh Hkp Hshape.
  unfold fetch_service_info. run_io.
  rewrite Hget. cbn [dict_get_or]. rewrite Hsr. cbn [dict_get].
  set (latest := default JNull (assoc "latestWkid" s)) in *.
  set (plain := default JNull (assoc "wkid" s)) in *.
  destruct (truthy latest); rewrite Hid; cbn beta iota;
    rewrite Hmw, Hmh, Hkp, <- app_assoc;
    destruct Hshape as [-> | [[b ->] | [q ->]]]; reflexivity.
Qed.

Lemma fetch_key_properties_not_a_container_witness :
  let info := [("spatialReference", JDict [("wkid", JNum 2868)])] in
  fetch_service_info sample_conversions "svc" (sample_world_kp (JDict info) (Ok JNull)) [] =
  (Raise TypeError, [EvGet "svc" pjson; EvGet "svc/keyProperties" pjson]).
Proof.
  intros info.
  apply (fetch_key_properties_not_a_container sample_conversions "svc"
           (sample_world_kp (JDict info) (Ok JNull)) [] info [("wkid", JNum 2868)]
           JNull 10000 10000); try reflexivity.
  by left.
Defined.
